(** * cozy: the media controller and the property binder it observes

    A shallow embedding of [cozy/ui/media_controller.py].  The controller is
    glue between a widget tree and two view models: it registers change
    callbacks with [bind_to], connects widget signals and keyboard actions to
    forwarding handlers, and copies view-model properties into widgets.

    Python objects are records, attribute assignment is a field update, and
    a method is a function [World → World].  The view-model classes, the
    widgets and the artwork cache are collaborators whose classes are not part
    of the file; what the controller does to them is kept as record fields
    (widget attributes) or as entries of a call trace (view-model calls).
    Widgets are passive: a widget method changes the attribute it names and
    emits no signal of its own.  Numbers handed from the view model to a
    widget are rationals; the controller never computes with them. *)

From stdpp Require Import base option list gmap strings.
From Stdlib Require Import QArith_base.
Close Scope Q_scope.

(** ** The observable property binder *)

Module Binder.

(** Modelled from the spec: the validation policy of [bind] is left to the
  implementation (the binder class itself is not in the file); both
  choices are kept. *)
Inductive validation := Strict | Permissive.

(** Modelled from the spec: the error [bind] raises under strict
  validation when the Subject does not define the property. *)
Inductive error := UnknownPropertyError (property_name : string).

Inductive outcome := Returned | Raised (e : error).

Section Registry.
(** [Cb] is the type of callback handles and [W] the state callbacks act
    on: the Subject together with whatever the observers own. *)
Context {Cb W : Type}.
Variable invoke : Cb → W → W.

(** Modelled from the spec: the Binding Registry maps a property name to
    the ordered sequence of callbacks registered against it; the class
    that owns it is not in the file.  A name without an entry has no
    callbacks. *)
Definition callbacks (reg : gmap string (list Cb)) (P : string) : list Cb :=
  default [] (reg !! P).

(** Modelled from the spec: registration appends, so insertion order is
    notification order and duplicates are kept. *)
Definition register (P : string) (cb : Cb) (reg : gmap string (list Cb))
  : gmap string (list Cb) :=
  <[P := callbacks reg P ++ [cb]]> reg.

(** Modelled from the spec: [bind(property_name, callback)].  [defined]
    is the set of property names the Subject defines.  Under strict
    validation an undefined name raises and the registry is returned as
    it was; the permissive binder accepts every name. *)
Definition bind (mode : validation) (defined : gset string)
    (P : string) (cb : Cb) (reg : gmap string (list Cb))
  : outcome * gmap string (list Cb) :=
  match mode with
  | Permissive => (Returned, register P cb reg)
  | Strict =>
      if decide (P ∈ defined) then (Returned, register P cb reg)
      else (Raised (UnknownPropertyError P), reg)
  end.

(** The loop of [notify]: the callbacks run one after the other on the
    live state.  The first component logs each invocation with the state
    the callback found when it was entered. *)
Fixpoint dispatch (cbs : list Cb) (w : W) : list (Cb * W) * W :=
  match cbs with
  | [] => ([], w)
  | cb :: rest =>
      let r := dispatch rest (invoke cb w) in
      ((cb, w) :: r.1, r.2)
  end.

(** Modelled from the spec: [notify(property_name)] synchronously
    invokes, in registration order, every callback bound to the name. *)
Definition notify (reg : gmap string (list Cb)) (P : string) (w : W)
  : list (Cb * W) * W :=
  dispatch (callbacks reg P) w.

(** A history of successful registrations, oldest first. *)
Fixpoint bind_all (bs : list (string * Cb)) (reg : gmap string (list Cb))
  : gmap string (list Cb) :=
  match bs with
  | [] => reg
  | (P, cb) :: rest => bind_all rest (register P cb reg)
  end.

(** The callbacks a history registers for [P], in registration order. *)
Fixpoint bound_to (P : string) (bs : list (string * Cb)) : list Cb :=
  match bs with
  | [] => []
  | (Q, cb) :: rest =>
      if decide (Q = P) then cb :: bound_to P rest else bound_to P rest
  end.

End Registry.
End Binder.


(** ** Collaborators of the controller *)

(** [cozy.db.book.Book], as far as the controller reads it:
    [book.name] and [book.current_chapter.name]. *)
Record Chapter := { chapter_name : string }.
Record Book := { book_name : string; current_chapter : Chapter }.

(** The cover the artwork cache hands out; the controller only passes it on. *)
Record Paintable := { texture : positive }.

(** [ArtworkCache.get_cover_paintable(book, scale, size)]; the class is not
    part of the file, so the lookup is a field of the injected instance. *)
Record ArtworkCache := {
  get_cover_paintable : Book → Z → Z → option Paintable
}.

(** Widgets, reduced to the attributes the controller touches. *)
Inductive widget :=
| the_media_controller | the_seek_bar | the_play_button | the_prev_button
| the_next_button | the_volume_button | the_timer_button
| the_cover_click_gesture.

Inductive image_source :=
| no_image
| from_paintable (p : Paintable)
| from_icon_name (icon : string).

Record Image := {
  image_visible : bool;
  image_source_of : image_source;
  pixel_size : Z;
  cursor : option string;
  controllers : list widget
}.

Record Label := {
  text : string;
  tooltip_text : option string;
  label_visible : bool
}.

Record Button := { icon_name : string }.
Record ScaleButton := { value : Q; icons : list string }.

Inductive Popover := PlaybackSpeedPopover.
Record MenuButton := { popover : option Popover }.

Record Box := { children : list widget }.
Record Revealer := { child : option widget; reveal_child : bool }.

(** [cozy.ui.widgets.seek_bar.SeekBar]: the three attributes assigned here. *)
Module SeekBar.
Record t := { position : Q; length : Q; visible : bool }.
End SeekBar.

(** [SleepTimer(timer_button)] keeps the button it was built for. *)
Record SleepTimer := { timer_widget : widget }.

(** [main_window_builder]; [get_object("media_control_box")] is the only
    lookup made on it. *)
Record Builder := { media_control_box : Revealer }.

(** ** Callback and handler handles *)

(** The bound methods handed to [bind_to]; all take no argument. *)
Inductive callback :=
| self_on_book_changed
| self_on_play_changed
| self_on_length_changed
| self_on_position_changed
| self_on_lock_ui_changed
| self_on_volume_changed.

(** The bound methods handed to [connect] and [create_action]. *)
Inductive handler :=
| self_play_clicked
| self_rewind_clicked
| self_forward_clicked
| self_cover_clicked
| self_on_volume_button_changed
| self_on_seek_bar_position_changed
| self_volume_up
| self_volume_down
| self_speed_up
| self_speed_down
| self_speed_reset
| self_next_chapter
| self_prev_chapter
| sleep_timer_present.

#[global] Instance callback_eq_dec : EqDecision callback.
Proof. solve_decision. Defined.
#[global] Instance handler_eq_dec : EqDecision handler.
Proof. solve_decision. Defined.
#[global] Instance widget_eq_dec : EqDecision widget.
Proof. solve_decision. Defined.

(** ** The view models *)

(** What the controller asks of [PlaybackControlViewModel]: methods, the two
    property assignments, and [bind_to]. *)
Inductive view_model_call :=
| bind_to (P : string) (cb : callback)
| play_pause
| rewind
| forward
| open_book_detail
| volume_up
| volume_down
| next_chapter
| previous_chapter
| assign_volume (v : Q)
| assign_relative_position (p : Q).

(** What the controller asks of [PlaybackSpeedViewModel]. *)
Inductive speed_view_model_call := speed_up | speed_down | speed_reset.

(** The properties the controller reads, and the binding registry the view
    model owns.  [length] and [relative_position] may be [None]. *)
Module PlaybackControlViewModel.
Record t := {
  book : option Book;
  playing : bool;
  length : option Q;
  relative_position : option Q;
  lock_ui : bool;
  volume : Q;
  observers : gmap string (list callback)
}.
End PlaybackControlViewModel.

(** ** The controller and the world around it *)

Record MediaController := {
  seek_bar_container : Box;
  play_button : Button;
  prev_button : Button;
  next_button : Button;
  volume_button : ScaleButton;
  cover_img : Image;
  title_label : Label;
  subtitle_label : Label;
  playback_speed_button : MenuButton;
  timer_button : MenuButton;
  timer_image : Image;
  container_bar : Revealer;
  seek_bar : SeekBar.t;
  sleep_timer : SleepTimer;
  scale_factor : Z
}.

(** An entry of the call trace: a callback or handler of the controller was
    entered, or the controller called out to a collaborator.  Logging its own
    entry is the first statement of every callback and handler below, and the
    only one that is not a statement of the source. *)
Inductive event :=
| Invoked (cb : callback)
| Handled (h : handler)
| PlaybackControl (c : view_model_call)
| PlaybackSpeed (c : speed_view_model_call)
| SleepTimerPresent.

Record MainWindow := {
  actions : list (string * handler * list string)
}.

Record World := {
  self : MediaController;
  _playback_control_view_model : PlaybackControlViewModel.t;
  _artwork_cache : ArtworkCache;
  main_window : MainWindow;
  connections : list (widget * string * handler);
  trace : list event
}.

Abbreviation vm w := (_playback_control_view_model w) (only parsing).

(** ** State updates *)

Definition update_self (f : MediaController → MediaController) (w : World) : World :=
  {| self := f (self w);
     _playback_control_view_model := _playback_control_view_model w;
     _artwork_cache := _artwork_cache w;
     main_window := main_window w;
     connections := connections w;
     trace := trace w |}.

Definition update_view_model
    (f : PlaybackControlViewModel.t → PlaybackControlViewModel.t) (w : World) : World :=
  {| self := self w;
     _playback_control_view_model := f (_playback_control_view_model w);
     _artwork_cache := _artwork_cache w;
     main_window := main_window w;
     connections := connections w;
     trace := trace w |}.

(** Append an entry to the call trace. *)
Definition log (e : event) (w : World) : World :=
  {| self := self w;
     _playback_control_view_model := _playback_control_view_model w;
     _artwork_cache := _artwork_cache w;
     main_window := main_window w;
     connections := connections w;
     trace := trace w ++ [e] |}.

(** [source.connect(signal, handler)] *)
Definition connect (source : widget) (signal : string) (h : handler) (w : World) : World :=
  {| self := self w;
     _playback_control_view_model := _playback_control_view_model w;
     _artwork_cache := _artwork_cache w;
     main_window := main_window w;
     connections := connections w ++ [(source, signal, h)];
     trace := trace w |}.

(** [main_window.create_action(name, handler, keys)] *)
Definition create_action (name : string) (h : handler) (keys : list string) (w : World) : World :=
  {| self := self w;
     _playback_control_view_model := _playback_control_view_model w;
     _artwork_cache := _artwork_cache w;
     main_window := {| actions := actions (main_window w) ++ [(name, h, keys)] |};
     connections := connections w;
     trace := trace w |}.

(** Statements run in sequence. *)
Definition then_ (f g : World → World) : World → World := λ w, g (f w).
Infix ";>" := then_ (at level 61, left associativity).

(** *** Widget methods *)

Definition Label_set_text (s : string) (l : Label) : Label :=
  {| text := s; tooltip_text := tooltip_text l; label_visible := label_visible l |}.
Definition Label_set_tooltip_text (s : string) (l : Label) : Label :=
  {| text := text l; tooltip_text := Some s; label_visible := label_visible l |}.
Definition Label_set_visible (b : bool) (l : Label) : Label :=
  {| text := text l; tooltip_text := tooltip_text l; label_visible := b |}.

Definition Image_set_visible (b : bool) (i : Image) : Image :=
  {| image_visible := b; image_source_of := image_source_of i;
     pixel_size := pixel_size i; cursor := cursor i; controllers := controllers i |}.
Definition Image_set_from_paintable (p : Paintable) (i : Image) : Image :=
  {| image_visible := image_visible i; image_source_of := from_paintable p;
     pixel_size := pixel_size i; cursor := cursor i; controllers := controllers i |}.
Definition Image_set_from_icon_name (s : string) (i : Image) : Image :=
  {| image_visible := image_visible i; image_source_of := from_icon_name s;
     pixel_size := pixel_size i; cursor := cursor i; controllers := controllers i |}.
Definition Image_set_pixel_size (n : Z) (i : Image) : Image :=
  {| image_visible := image_visible i; image_source_of := image_source_of i;
     pixel_size := n; cursor := cursor i; controllers := controllers i |}.
Definition Image_set_cursor (c : string) (i : Image) : Image :=
  {| image_visible := image_visible i; image_source_of := image_source_of i;
     pixel_size := pixel_size i; cursor := Some c; controllers := controllers i |}.
Definition Image_add_controller (g : widget) (i : Image) : Image :=
  {| image_visible := image_visible i; image_source_of := image_source_of i;
     pixel_size := pixel_size i; cursor := cursor i; controllers := controllers i ++ [g] |}.

Definition Button_set_icon_name (s : string) (_ : Button) : Button := {| icon_name := s |}.

Definition ScaleButton_set_value (v : Q) (b : ScaleButton) : ScaleButton :=
  {| value := v; icons := icons b |}.
Definition ScaleButton_set_icons (l : list string) (b : ScaleButton) : ScaleButton :=
  {| value := value b; icons := l |}.

Definition MenuButton_set_popover (p : Popover) (_ : MenuButton) : MenuButton :=
  {| popover := Some p |}.

Definition Box_append (c : widget) (b : Box) : Box := {| children := children b ++ [c] |}.

Definition Revealer_set_child (c : widget) (r : Revealer) : Revealer :=
  {| child := Some c; reveal_child := reveal_child r |}.
Definition Revealer_set_reveal_child (b : bool) (r : Revealer) : Revealer :=
  {| child := child r; reveal_child := b |}.

Definition SeekBar_set_position (p : Q) (s : SeekBar.t) : SeekBar.t :=
  {| SeekBar.position := p; SeekBar.length := SeekBar.length s;
     SeekBar.visible := SeekBar.visible s |}.
Definition SeekBar_set_length (n : Q) (s : SeekBar.t) : SeekBar.t :=
  {| SeekBar.position := SeekBar.position s; SeekBar.length := n;
     SeekBar.visible := SeekBar.visible s |}.
Definition SeekBar_set_visible (b : bool) (s : SeekBar.t) : SeekBar.t :=
  {| SeekBar.position := SeekBar.position s; SeekBar.length := SeekBar.length s;
     SeekBar.visible := b |}.

(** *** Attributes of [self] *)

Definition on_seek_bar_container (f : Box → Box) : World → World :=
  update_self (λ c,
    {| seek_bar_container := f (seek_bar_container c); play_button := play_button c;
       prev_button := prev_button c; next_button := next_button c;
       volume_button := volume_button c; cover_img := cover_img c;
       title_label := title_label c; subtitle_label := subtitle_label c;
       playback_speed_button := playback_speed_button c; timer_button := timer_button c;
       timer_image := timer_image c; container_bar := container_bar c;
       seek_bar := seek_bar c; sleep_timer := sleep_timer c;
       scale_factor := scale_factor c |}).

Definition on_play_button (f : Button → Button) : World → World :=
  update_self (λ c,
    {| seek_bar_container := seek_bar_container c; play_button := f (play_button c);
       prev_button := prev_button c; next_button := next_button c;
       volume_button := volume_button c; cover_img := cover_img c;
       title_label := title_label c; subtitle_label := subtitle_label c;
       playback_speed_button := playback_speed_button c; timer_button := timer_button c;
       timer_image := timer_image c; container_bar := container_bar c;
       seek_bar := seek_bar c; sleep_timer := sleep_timer c;
       scale_factor := scale_factor c |}).

Definition on_volume_button (f : ScaleButton → ScaleButton) : World → World :=
  update_self (λ c,
    {| seek_bar_container := seek_bar_container c; play_button := play_button c;
       prev_button := prev_button c; next_button := next_button c;
       volume_button := f (volume_button c); cover_img := cover_img c;
       title_label := title_label c; subtitle_label := subtitle_label c;
       playback_speed_button := playback_speed_button c; timer_button := timer_button c;
       timer_image := timer_image c; container_bar := container_bar c;
       seek_bar := seek_bar c; sleep_timer := sleep_timer c;
       scale_factor := scale_factor c |}).

Definition on_cover_img (f : Image → Image) : World → World :=
  update_self (λ c,
    {| seek_bar_container := seek_bar_container c; play_button := play_button c;
       prev_button := prev_button c; next_button := next_button c;
       volume_button := volume_button c; cover_img := f (cover_img c);
       title_label := title_label c; subtitle_label := subtitle_label c;
       playback_speed_button := playback_speed_button c; timer_button := timer_button c;
       timer_image := timer_image c; container_bar := container_bar c;
       seek_bar := seek_bar c; sleep_timer := sleep_timer c;
       scale_factor := scale_factor c |}).

Definition on_title_label (f : Label → Label) : World → World :=
  update_self (λ c,
    {| seek_bar_container := seek_bar_container c; play_button := play_button c;
       prev_button := prev_button c; next_button := next_button c;
       volume_button := volume_button c; cover_img := cover_img c;
       title_label := f (title_label c); subtitle_label := subtitle_label c;
       playback_speed_button := playback_speed_button c; timer_button := timer_button c;
       timer_image := timer_image c; container_bar := container_bar c;
       seek_bar := seek_bar c; sleep_timer := sleep_timer c;
       scale_factor := scale_factor c |}).

Definition on_subtitle_label (f : Label → Label) : World → World :=
  update_self (λ c,
    {| seek_bar_container := seek_bar_container c; play_button := play_button c;
       prev_button := prev_button c; next_button := next_button c;
       volume_button := volume_button c; cover_img := cover_img c;
       title_label := title_label c; subtitle_label := f (subtitle_label c);
       playback_speed_button := playback_speed_button c; timer_button := timer_button c;
       timer_image := timer_image c; container_bar := container_bar c;
       seek_bar := seek_bar c; sleep_timer := sleep_timer c;
       scale_factor := scale_factor c |}).

Definition on_playback_speed_button (f : MenuButton → MenuButton) : World → World :=
  update_self (λ c,
    {| seek_bar_container := seek_bar_container c; play_button := play_button c;
       prev_button := prev_button c; next_button := next_button c;
       volume_button := volume_button c; cover_img := cover_img c;
       title_label := title_label c; subtitle_label := subtitle_label c;
       playback_speed_button := f (playback_speed_button c); timer_button := timer_button c;
       timer_image := timer_image c; container_bar := container_bar c;
       seek_bar := seek_bar c; sleep_timer := sleep_timer c;
       scale_factor := scale_factor c |}).

Definition on_container_bar (f : Revealer → Revealer) : World → World :=
  update_self (λ c,
    {| seek_bar_container := seek_bar_container c; play_button := play_button c;
       prev_button := prev_button c; next_button := next_button c;
       volume_button := volume_button c; cover_img := cover_img c;
       title_label := title_label c; subtitle_label := subtitle_label c;
       playback_speed_button := playback_speed_button c; timer_button := timer_button c;
       timer_image := timer_image c; container_bar := f (container_bar c);
       seek_bar := seek_bar c; sleep_timer := sleep_timer c;
       scale_factor := scale_factor c |}).

Definition on_seek_bar (f : SeekBar.t → SeekBar.t) : World → World :=
  update_self (λ c,
    {| seek_bar_container := seek_bar_container c; play_button := play_button c;
       prev_button := prev_button c; next_button := next_button c;
       volume_button := volume_button c; cover_img := cover_img c;
       title_label := title_label c; subtitle_label := subtitle_label c;
       playback_speed_button := playback_speed_button c; timer_button := timer_button c;
       timer_image := timer_image c; container_bar := container_bar c;
       seek_bar := f (seek_bar c); sleep_timer := sleep_timer c;
       scale_factor := scale_factor c |}).

Definition on_sleep_timer (f : SleepTimer → SleepTimer) : World → World :=
  update_self (λ c,
    {| seek_bar_container := seek_bar_container c; play_button := play_button c;
       prev_button := prev_button c; next_button := next_button c;
       volume_button := volume_button c; cover_img := cover_img c;
       title_label := title_label c; subtitle_label := subtitle_label c;
       playback_speed_button := playback_speed_button c; timer_button := timer_button c;
       timer_image := timer_image c; container_bar := container_bar c;
       seek_bar := seek_bar c; sleep_timer := f (sleep_timer c);
       scale_factor := scale_factor c |}).

(** ** Calls into the view models *)

(** A method call or property assignment on [PlaybackControlViewModel].  The
    bodies live in the view-model class; the controller's part ends with the
    call, which the trace records. *)
Definition call_view_model (c : view_model_call) : World → World :=
  log (PlaybackControl c).

Definition call_speed_view_model (c : speed_view_model_call) : World → World :=
  log (PlaybackSpeed c).

(** [self._playback_control_view_model.bind_to(P, cb)].  Modelled from the
    spec: the view model's binder class is not in the file; the registration
    is the binder's [register], and the call accepts every name (the
    permissive choice), as [_connect_view_model] has no error path. *)
Definition view_model_bind_to (P : string) (cb : callback) : World → World :=
  call_view_model (bind_to P cb) ;>
  update_view_model (λ m,
    {| PlaybackControlViewModel.book := PlaybackControlViewModel.book m;
       PlaybackControlViewModel.playing := PlaybackControlViewModel.playing m;
       PlaybackControlViewModel.length := PlaybackControlViewModel.length m;
       PlaybackControlViewModel.relative_position :=
         PlaybackControlViewModel.relative_position m;
       PlaybackControlViewModel.lock_ui := PlaybackControlViewModel.lock_ui m;
       PlaybackControlViewModel.volume := PlaybackControlViewModel.volume m;
       PlaybackControlViewModel.observers :=
         Binder.register P cb (PlaybackControlViewModel.observers m) |}).

(** ** The methods of [MediaController] *)

Definition COVER_SIZE : Z := 46.

(** Python's truth value of the objects met here.  [None] is false (in
    [if paintable:] and [if length:] it is the [None] branch of the match);
    an instance of a class that defines neither [__bool__] nor [__len__], as
    the [Book] model, is true; a number is false when it is zero. *)
Definition truthy_object {A} (x : option A) : bool :=
  match x with Some _ => true | None => false end.

Definition truthy_number (q : Q) : bool := negb (Qeq_bool q 0).

Definition _connect_view_model : World → World :=
  view_model_bind_to "book" self_on_book_changed ;>
  view_model_bind_to "playing" self_on_play_changed ;>
  view_model_bind_to "length" self_on_length_changed ;>
  view_model_bind_to "position" self_on_position_changed ;>
  view_model_bind_to "lock_ui" self_on_lock_ui_changed ;>
  view_model_bind_to "volume" self_on_volume_changed.

Definition _connect_widgets : World → World :=
  connect the_play_button "clicked" self_play_clicked ;>
  connect the_volume_button "value-changed" self_on_volume_button_changed ;>
  connect the_seek_bar "position-changed" self_on_seek_bar_position_changed ;>
  connect the_prev_button "clicked" self_rewind_clicked ;>
  connect the_next_button "clicked" self_forward_clicked ;>
  connect the_seek_bar "rewind" self_rewind_clicked ;>
  connect the_seek_bar "forward" self_forward_clicked ;>
  connect the_cover_click_gesture "pressed" self_cover_clicked ;>
  on_cover_img (Image_add_controller the_cover_click_gesture) ;>
  on_cover_img (Image_set_cursor "pointer").

Definition _set_cover_image (book : Book) : World → World := λ w,
  let paintable :=
    get_cover_paintable (_artwork_cache w) book (scale_factor (self w)) COVER_SIZE in
  match paintable with
  | Some p => on_cover_img (Image_set_from_paintable p) w
  | None =>
      (on_cover_img (Image_set_from_icon_name "book-open-variant-symbolic") ;>
       on_cover_img (Image_set_pixel_size COVER_SIZE)) w
  end.

Definition _setup_shortcuts : World → World :=
  create_action "play_pause" self_play_clicked ["space"] ;>
  create_action "seek_rewind" self_rewind_clicked ["Left"] ;>
  create_action "seek_forward" self_forward_clicked ["Right"] ;>
  create_action "volume_up" self_volume_up ["Up"] ;>
  create_action "volume_down" self_volume_down ["Down"] ;>
  create_action "speed_up" self_speed_up ["plus"; "KP_Add"; "<primary>Up"] ;>
  create_action "speed_down" self_speed_down ["minus"; "KP_Subtract"; "<primary>Down"] ;>
  create_action "speed_reset" self_speed_reset ["equal"] ;>
  create_action "prev_chapter" self_prev_chapter ["Page_Down"; "<primary>Left"] ;>
  create_action "next_chapter" self_next_chapter ["Page_Up"; "<primary>Right"].

Definition _show_media_information (visibility : bool) : World → World :=
  on_title_label (Label_set_visible visibility) ;>
  on_subtitle_label (Label_set_visible visibility) ;>
  on_cover_img (Image_set_visible visibility) ;>
  on_seek_bar (SeekBar_set_visible visibility).

Definition _set_book (book : option Book) : World → World :=
  match book with
  | Some b =>
      _set_cover_image b ;>
      on_title_label (Label_set_text (book_name b)) ;>
      on_title_label (Label_set_tooltip_text (book_name b)) ;>
      on_subtitle_label (Label_set_text (chapter_name (current_chapter b))) ;>
      on_subtitle_label (Label_set_tooltip_text (chapter_name (current_chapter b)))
  | None => λ w, w
  end.

Definition _on_book_changed : World → World :=
  log (Invoked self_on_book_changed) ;>
  λ w,
    let book := PlaybackControlViewModel.book (vm w) in
    (_set_book book ;> _show_media_information (truthy_object book)) w.

Definition _on_play_changed : World → World :=
  log (Invoked self_on_play_changed) ;>
  λ w,
    if PlaybackControlViewModel.playing (vm w)
    then on_play_button (Button_set_icon_name "media-playback-pause-symbolic") w
    else on_play_button (Button_set_icon_name "media-playback-start-symbolic") w.

Definition _on_position_changed : World → World :=
  log (Invoked self_on_position_changed) ;>
  λ w,
    let position := PlaybackControlViewModel.relative_position (vm w) in
    match position with
    | Some p => on_seek_bar (SeekBar_set_position p) w
    | None => w
    end.

Definition _on_length_changed : World → World :=
  log (Invoked self_on_length_changed) ;>
  λ w,
    let length := PlaybackControlViewModel.length (vm w) in
    match length with
    | Some n => if truthy_number n then on_seek_bar (SeekBar_set_length n) w else w
    | None => w
    end.

Definition _on_lock_ui_changed : World → World :=
  log (Invoked self_on_lock_ui_changed) ;>
  λ w,
    let sensitive := negb (PlaybackControlViewModel.lock_ui (vm w)) in
    on_container_bar (Revealer_set_reveal_child sensitive) w.

Definition _on_volume_changed : World → World :=
  log (Invoked self_on_volume_changed) ;>
  λ w, on_volume_button (ScaleButton_set_value (PlaybackControlViewModel.volume (vm w))) w.

Definition _volume_up : World → World :=
  log (Handled self_volume_up) ;> call_view_model volume_up.

Definition _volume_down : World → World :=
  log (Handled self_volume_down) ;> call_view_model volume_down.

Definition _speed_up : World → World :=
  log (Handled self_speed_up) ;> call_speed_view_model speed_up.

Definition _speed_down : World → World :=
  log (Handled self_speed_down) ;> call_speed_view_model speed_down.

Definition _speed_reset : World → World :=
  log (Handled self_speed_reset) ;> call_speed_view_model speed_reset.

Definition _next_chapter : World → World :=
  log (Handled self_next_chapter) ;> call_view_model next_chapter.

Definition _prev_chapter : World → World :=
  log (Handled self_prev_chapter) ;> call_view_model previous_chapter.

Definition _play_clicked : World → World :=
  log (Handled self_play_clicked) ;> call_view_model play_pause.

Definition _rewind_clicked : World → World :=
  log (Handled self_rewind_clicked) ;> call_view_model rewind.

Definition _forward_clicked : World → World :=
  log (Handled self_forward_clicked) ;> call_view_model forward.

Definition _cover_clicked : World → World :=
  log (Handled self_cover_clicked) ;> call_view_model open_book_detail.

Definition _on_volume_button_changed (volume : Q) : World → World :=
  log (Handled self_on_volume_button_changed) ;> call_view_model (assign_volume volume).

Definition _on_seek_bar_position_changed (position : Q) : World → World :=
  log (Handled self_on_seek_bar_position_changed) ;>
  call_view_model (assign_relative_position position).

(** [__init__(self, main_window_builder)].  [new_seek_bar] is the widget
    [SeekBar()] returns; its class is not part of the file.  The injected
    view models, artwork cache and main window are the ones of the world, and
    [super().__init__()] has nothing to do here. *)
Definition __init__ (main_window_builder : Builder) (new_seek_bar : SeekBar.t)
  : World → World :=
  on_container_bar (λ _, media_control_box main_window_builder) ;>
  on_container_bar (Revealer_set_child the_media_controller) ;>
  on_seek_bar (λ _, new_seek_bar) ;>
  on_seek_bar_container (Box_append the_seek_bar) ;>
  on_sleep_timer (λ _, {| timer_widget := the_timer_button |}) ;>
  connect the_timer_button "clicked" sleep_timer_present ;>
  on_playback_speed_button (MenuButton_set_popover PlaybackSpeedPopover) ;>
  on_volume_button (ScaleButton_set_icons
    ["audio-volume-muted-symbolic"; "audio-volume-high-symbolic";
     "audio-volume-low-symbolic"; "audio-volume-medium-symbolic"]) ;>
  _connect_view_model ;>
  _connect_widgets ;>
  _on_book_changed ;>
  _on_lock_ui_changed ;>
  _on_length_changed ;>
  _on_position_changed ;>
  _on_volume_changed ;>
  _setup_shortcuts.

(** The statements of [__init__] that come before [_connect_view_model]. *)
Definition construction_prefix (main_window_builder : Builder) (new_seek_bar : SeekBar.t)
  : World → World :=
  on_container_bar (λ _, media_control_box main_window_builder) ;>
  on_container_bar (Revealer_set_child the_media_controller) ;>
  on_seek_bar (λ _, new_seek_bar) ;>
  on_seek_bar_container (Box_append the_seek_bar) ;>
  on_sleep_timer (λ _, {| timer_widget := the_timer_button |}) ;>
  connect the_timer_button "clicked" sleep_timer_present ;>
  on_playback_speed_button (MenuButton_set_popover PlaybackSpeedPopover) ;>
  on_volume_button (ScaleButton_set_icons
    ["audio-volume-muted-symbolic"; "audio-volume-high-symbolic";
     "audio-volume-low-symbolic"; "audio-volume-medium-symbolic"]).

(** ** Dispatch through handles *)

(** Calling a registered change callback: no argument is passed. *)
Definition invoke (cb : callback) : World → World :=
  match cb with
  | self_on_book_changed => _on_book_changed
  | self_on_play_changed => _on_play_changed
  | self_on_length_changed => _on_length_changed
  | self_on_position_changed => _on_position_changed
  | self_on_lock_ui_changed => _on_lock_ui_changed
  | self_on_volume_changed => _on_volume_changed
  end.

(** Calling a signal or action handler.  [arg] is the value the signal
    carries after the emitting widget; handlers declared with [*_] drop it.
    [SleepTimer.present] belongs to the sleep timer, not to the controller. *)
Definition handle (h : handler) (arg : Q) : World → World :=
  match h with
  | self_play_clicked => _play_clicked
  | self_rewind_clicked => _rewind_clicked
  | self_forward_clicked => _forward_clicked
  | self_cover_clicked => _cover_clicked
  | self_on_volume_button_changed => _on_volume_button_changed arg
  | self_on_seek_bar_position_changed => _on_seek_bar_position_changed arg
  | self_volume_up => _volume_up
  | self_volume_down => _volume_down
  | self_speed_up => _speed_up
  | self_speed_down => _speed_down
  | self_speed_reset => _speed_reset
  | self_next_chapter => _next_chapter
  | self_prev_chapter => _prev_chapter
  | sleep_timer_present => log (Handled sleep_timer_present) ;> log SleepTimerPresent
  end.

(** The view model announcing a change of property [P] to its observers. *)
Definition view_model_notify (P : string) (w : World) : list (callback * World) * World :=
  Binder.notify invoke (PlaybackControlViewModel.observers (vm w)) P w.

(** Modelled from the spec: a Subject that assigns a new value to a property
    notifies the property's observers before the assignment returns.  The
    setter of [volume] in [PlaybackControlViewModel] is not part of the file. *)
Definition view_model_set_volume (v : Q) (w : World) : list (callback * World) * World :=
  view_model_notify "volume"
    (update_view_model (λ m,
      {| PlaybackControlViewModel.book := PlaybackControlViewModel.book m;
         PlaybackControlViewModel.playing := PlaybackControlViewModel.playing m;
         PlaybackControlViewModel.length := PlaybackControlViewModel.length m;
         PlaybackControlViewModel.relative_position :=
           PlaybackControlViewModel.relative_position m;
         PlaybackControlViewModel.lock_ui := PlaybackControlViewModel.lock_ui m;
         PlaybackControlViewModel.volume := v;
         PlaybackControlViewModel.observers := PlaybackControlViewModel.observers m |}) w).

(** ** Everything the controller can be asked to do *)

Inductive operation :=
| construct (main_window_builder : Builder) (new_seek_bar : SeekBar.t)
| connect_view_model
| connect_widgets
| setup_shortcuts
| set_cover_image (book : Book)
| show_media_information (visibility : bool)
| set_book (book : option Book)
| change_callback (cb : callback)
| event_handler (h : handler) (arg : Q).

Definition run (op : operation) : World → World :=
  match op with
  | construct b s => __init__ b s
  | connect_view_model => _connect_view_model
  | connect_widgets => _connect_widgets
  | setup_shortcuts => _setup_shortcuts
  | set_cover_image b => _set_cover_image b
  | show_media_information v => _show_media_information v
  | set_book b => _set_book b
  | change_callback cb => invoke cb
  | event_handler h arg => handle h arg
  end.

Definition run_all (ops : list operation) (w : World) : World :=
  foldl (λ w op, run op w) w ops.

(** The operations that call [bind_to]. *)
Definition registers (op : operation) : bool :=
  match op with
  | construct _ _ | connect_view_model => true
  | _ => false
  end.

(** The registrations [_connect_view_model] makes, in program order. *)
Definition view_model_bindings : list (string * callback) :=
  [("book", self_on_book_changed);
   ("playing", self_on_play_changed);
   ("length", self_on_length_changed);
   ("position", self_on_position_changed);
   ("lock_ui", self_on_lock_ui_changed);
   ("volume", self_on_volume_changed)].

(** ** Reading the trace *)

Definition bind_to_calls (t : list event) : list (string * callback) :=
  omap (λ e, match e with PlaybackControl (bind_to P cb) => Some (P, cb) | _ => None end) t.

Definition invocations (t : list event) : list callback :=
  omap (λ e, match e with Invoked cb => Some cb | _ => None end) t.

(** Calls that left the controller for a view model. *)
Definition is_view_model_call (e : event) : bool :=
  match e with
  | PlaybackControl _ | PlaybackSpeed _ => true
  | _ => false
  end.

(** The handlers a method connects to widget signals, and the ones it binds
    to keyboard actions: what it adds to the two tables. *)
Definition newly_connected (f : World → World) (w : World) : list handler :=
  (drop (length (connections w)) (connections (f w))).*2.

Definition newly_bound (f : World → World) (w : World) : list handler :=
  (drop (length (actions (main_window w))) (actions (main_window (f w)))).*1.*2.

(** What a method appends to the trace. *)
Definition emitted (f : World → World) (w : World) : list event :=
  drop (length (trace w)) (trace (f w)).

(** The view-model call each handler of the controller stands for. *)
Definition forwarded (h : handler) (arg : Q) : option event :=
  match h with
  | self_play_clicked => Some (PlaybackControl play_pause)
  | self_rewind_clicked => Some (PlaybackControl rewind)
  | self_forward_clicked => Some (PlaybackControl forward)
  | self_cover_clicked => Some (PlaybackControl open_book_detail)
  | self_on_volume_button_changed => Some (PlaybackControl (assign_volume arg))
  | self_on_seek_bar_position_changed =>
      Some (PlaybackControl (assign_relative_position arg))
  | self_volume_up => Some (PlaybackControl volume_up)
  | self_volume_down => Some (PlaybackControl volume_down)
  | self_speed_up => Some (PlaybackSpeed speed_up)
  | self_speed_down => Some (PlaybackSpeed speed_down)
  | self_speed_reset => Some (PlaybackSpeed speed_reset)
  | self_next_chapter => Some (PlaybackControl next_chapter)
  | self_prev_chapter => Some (PlaybackControl previous_chapter)
  | sleep_timer_present => None
  end.

(** What a change callback has copied from view model [m] into the
    controller [c] once it has run. *)
Definition shows_view_model
    (cb : callback) (m : PlaybackControlViewModel.t) (c : MediaController) : Prop :=
  match cb with
  | self_on_book_changed =>
      ∀ b, PlaybackControlViewModel.book m = Some b →
        text (title_label c) = book_name b
        ∧ text (subtitle_label c) = chapter_name (current_chapter b)
  | self_on_play_changed =>
      icon_name (play_button c)
      = if PlaybackControlViewModel.playing m
        then "media-playback-pause-symbolic" else "media-playback-start-symbolic"
  | self_on_length_changed =>
      ∀ n, PlaybackControlViewModel.length m = Some n → truthy_number n = true →
        SeekBar.length (seek_bar c) = n
  | self_on_position_changed =>
      ∀ p, PlaybackControlViewModel.relative_position m = Some p →
        SeekBar.position (seek_bar c) = p
  | self_on_lock_ui_changed =>
      reveal_child (container_bar c) = negb (PlaybackControlViewModel.lock_ui m)
  | self_on_volume_changed =>
      value (volume_button c) = PlaybackControlViewModel.volume m
  end.

(** The icon [_on_play_changed] chooses. *)
Definition play_icon (playing : bool) : string :=
  if playing then "media-playback-pause-symbolic" else "media-playback-start-symbolic".



(** The rows a method adds to the two registration tables. *)
Definition new_connections (f : World → World) (w : World)
  : list (widget * string * handler) :=
  drop (length (connections w)) (connections (f w)).

Definition new_actions (f : World → World) (w : World)
  : list (string * handler * list string) :=
  drop (length (actions (main_window w))) (actions (main_window (f w))).

(** ** A concrete world *)

Definition example_book : Book :=
  {| book_name := "Dune"; current_chapter := {| chapter_name := "Arrakis" |} |}.

Definition blank_image : Image :=
  {| image_visible := true; image_source_of := no_image; pixel_size := 0;
     cursor := None; controllers := [] |}.

Definition blank_label : Label :=
  {| text := ""; tooltip_text := None; label_visible := true |}.

Definition example_seek_bar : SeekBar.t :=
  {| SeekBar.position := 0; SeekBar.length := 0; SeekBar.visible := true |}.

Definition example_builder : Builder :=
  {| media_control_box := {| child := None; reveal_child := false |} |}.

(** A controller fresh from its template, next to a view model that is
    playing [example_book] at volume 0.5 and has no observers yet. *)
Definition example_world : World :=
  {| self :=
       {| seek_bar_container := {| children := [] |};
          play_button := {| icon_name := "media-playback-start-symbolic" |};
          prev_button := {| icon_name := "media-seek-backward-symbolic" |};
          next_button := {| icon_name := "media-seek-forward-symbolic" |};
          volume_button := {| value := 0; icons := [] |};
          cover_img := blank_image;
          title_label := blank_label;
          subtitle_label := blank_label;
          playback_speed_button := {| popover := None |};
          timer_button := {| popover := None |};
          timer_image := blank_image;
          container_bar := {| child := None; reveal_child := false |};
          seek_bar := example_seek_bar;
          sleep_timer := {| timer_widget := the_timer_button |};
          scale_factor := 1 |};
     _playback_control_view_model :=
       {| PlaybackControlViewModel.book := Some example_book;
          PlaybackControlViewModel.playing := true;
          PlaybackControlViewModel.length := Some (3600 # 1)%Q;
          PlaybackControlViewModel.relative_position := Some (1 # 4)%Q;
          PlaybackControlViewModel.lock_ui := false;
          PlaybackControlViewModel.volume := (1 # 2)%Q;
          PlaybackControlViewModel.observers := ∅ |};
     _artwork_cache := {| get_cover_paintable := λ _ _ _, None |};
     main_window := {| actions := [] |};
     connections := [];
     trace := [] |}.

Definition constructed_world : World := __init__ example_builder example_seek_bar example_world.

(** The constructed world after the view model has dropped its book and its
    position (no change has been announced yet). *)
Definition idle_world : World :=
  update_view_model (λ m,
    {| PlaybackControlViewModel.book := None;
       PlaybackControlViewModel.playing := false;
       PlaybackControlViewModel.length := None;
       PlaybackControlViewModel.relative_position := None;
       PlaybackControlViewModel.lock_ui := PlaybackControlViewModel.lock_ui m;
       PlaybackControlViewModel.volume := PlaybackControlViewModel.volume m;
       PlaybackControlViewModel.observers := PlaybackControlViewModel.observers m |})
    constructed_world.

(** The constructed world with the view model rewound to the very start of
    a chapter of unknown (zero) length. *)
Definition rewound_world : World :=
  update_view_model (λ m,
    {| PlaybackControlViewModel.book := PlaybackControlViewModel.book m;
       PlaybackControlViewModel.playing := PlaybackControlViewModel.playing m;
       PlaybackControlViewModel.length := Some 0%Q;
       PlaybackControlViewModel.relative_position := Some 0%Q;
       PlaybackControlViewModel.lock_ui := PlaybackControlViewModel.lock_ui m;
       PlaybackControlViewModel.volume := PlaybackControlViewModel.volume m;
       PlaybackControlViewModel.observers := PlaybackControlViewModel.observers m |})
    constructed_world.

(** * Properties *)

(** ** The binder *)

Section BinderFacts.
Context {Cb W : Type}.
Variable invoke0 : Cb → W → W.

Lemma callbacks_empty (P : string) : Binder.callbacks (∅ : gmap string (list Cb)) P = [].
Proof. unfold Binder.callbacks. by rewrite lookup_empty. Qed.

Lemma callbacks_register_eq P (cb : Cb) reg :
  Binder.callbacks (Binder.register P cb reg) P = Binder.callbacks reg P ++ [cb].
Proof.
  unfold Binder.register. unfold Binder.callbacks at 1. by rewrite lookup_insert_eq.
Qed.

Lemma callbacks_register_ne P Q (cb : Cb) reg :
  P ≠ Q → Binder.callbacks (Binder.register P cb reg) Q = Binder.callbacks reg Q.
Proof.
  intros Hne. unfold Binder.register. unfold Binder.callbacks at 1 3.
  by rewrite lookup_insert_ne.
Qed.

Lemma callbacks_bind_all (bs : list (string * Cb)) : ∀ reg P,
  Binder.callbacks (Binder.bind_all bs reg) P
  = Binder.callbacks reg P ++ Binder.bound_to P bs.
Proof.
  induction bs as [|[Q cb] bs IH]; intros reg P; simpl.
  - by rewrite app_nil_r.
  - rewrite IH. destruct (decide (Q = P)) as [->|Hne].
    + rewrite callbacks_register_eq. by rewrite <- app_assoc.
    + by rewrite callbacks_register_ne.
Qed.

Lemma dispatch_handles (cbs : list Cb) : ∀ w, (Binder.dispatch invoke0 cbs w).1.*1 = cbs.
Proof. induction cbs as [|cb cbs IH]; intros w; simpl; [done|by rewrite IH]. Qed.

Lemma dispatch_final (cbs : list Cb) : ∀ w,
  (Binder.dispatch invoke0 cbs w).2 = foldl (λ w cb, invoke0 cb w) w cbs.
Proof. induction cbs as [|cb cbs IH]; intros w; simpl; [done|by rewrite IH]. Qed.

Lemma dispatch_observed (cbs : list Cb) : ∀ w i cb wi,
  (Binder.dispatch invoke0 cbs w).1 !! i = Some (cb, wi) →
  wi = foldl (λ w cb, invoke0 cb w) w (take i cbs).
Proof.
  induction cbs as [|c cbs IH]; intros w i cb wi; simpl.
  - by rewrite lookup_nil.
  - destruct i as [|i]; simpl.
    + by intros [= _ <-].
    + apply IH.
Qed.

Lemma bound_to_elem P (bs : list (string * Cb)) cb :
  cb ∈ Binder.bound_to P bs → (P, cb) ∈ bs.
Proof.
  induction bs as [|[Q c] bs IH]; simpl; [by rewrite elem_of_nil|].
  destruct (decide (Q = P)) as [->|Hne].
  - rewrite !elem_of_cons. intros [->|H]; [by left|right; auto].
  - rewrite elem_of_cons. auto.
Qed.

Lemma notify_bind_all_handles bs P w :
  (Binder.notify invoke0 (Binder.bind_all bs ∅) P w).1.*1 = Binder.bound_to P bs.
Proof.
  unfold Binder.notify. rewrite dispatch_handles, callbacks_bind_all.
  by rewrite callbacks_empty.
Qed.

End BinderFacts.

(** C1.  Notifying property [P] after any history [bs] of registrations
    invokes exactly the callbacks registered for [P], one invocation per
    registration and in registration order; the callback at position [i]
    finds the state at the time of notification advanced by the [i]
    callbacks before it (so the first one finds that very state), and the
    notification ends in the state the last callback leaves.  In particular
    two callbacks bound to [P] in the order [cb1], [cb2] run as [cb1] then
    [cb2]. *)
Theorem notify_invokes_registered_in_order
    {Cb W : Type} (invoke0 : Cb → W → W)
    (bs : list (string * Cb)) (P : string) (w : W) :
  let r := Binder.notify invoke0 (Binder.bind_all bs ∅) P w in
  r.1.*1 = Binder.bound_to P bs
  ∧ (∀ i cb wi, r.1 !! i = Some (cb, wi) →
       wi = foldl (λ w cb, invoke0 cb w) w (take i (Binder.bound_to P bs)))
  ∧ r.2 = foldl (λ w cb, invoke0 cb w) w (Binder.bound_to P bs)
  ∧ (∀ cb1 cb2,
       Binder.notify invoke0 (Binder.bind_all [(P, cb1); (P, cb2)] ∅) P w
       = ([(cb1, w); (cb2, invoke0 cb1 w)], invoke0 cb2 (invoke0 cb1 w))).
Proof.
  intros r. subst r. split; [apply notify_bind_all_handles|].
  unfold Binder.notify. split; [|split].
  - rewrite callbacks_bind_all, callbacks_empty. simpl.
    intros i cb wi. apply dispatch_observed.
  - rewrite callbacks_bind_all, callbacks_empty. apply dispatch_final.
  - intros cb1 cb2. rewrite callbacks_bind_all, callbacks_empty. simpl.
    by rewrite !decide_True.
Qed.

(** C4.  A callback bound only to [P] is not invoked by a notification for
    a different property [Q]. *)
Theorem notify_other_property_not_invoked
    {Cb W : Type} (invoke0 : Cb → W → W)
    (bs : list (string * Cb)) (P Q : string) (cb : Cb) (w : W) :
  P ≠ Q →
  (P, cb) ∈ bs →
  (∀ R, (R, cb) ∈ bs → R = P) →
  cb ∉ (Binder.notify invoke0 (Binder.bind_all bs ∅) Q w).1.*1.
Proof.
  intros Hne _ Honly Hin. rewrite notify_bind_all_handles in Hin.
  apply bound_to_elem in Hin. apply Honly in Hin. congruence.
Qed.

(** C7.  Under strict validation, [bind] with a name the Subject does not
    define raises [UnknownPropertyError] and hands the registry back
    unchanged: no property has gained a callback. *)
Theorem bind_strict_unknown_property
    {Cb : Type} (defined : gset string) (P : string) (cb : Cb)
    (reg : gmap string (list Cb)) :
  P ∉ defined →
  Binder.bind Binder.Strict defined P cb reg
    = (Binder.Raised (Binder.UnknownPropertyError P), reg)
  ∧ ∀ Q, Binder.callbacks (Binder.bind Binder.Strict defined P cb reg).2 Q
         = Binder.callbacks reg Q.
Proof.
  intros Hundef. unfold Binder.bind. by rewrite decide_False.
Qed.

(** ** The controller *)

(** [run_statements] evaluates field reads through the straight-line
    statements of the controller (updates, registrations, the three
    [_connect]/[_setup] methods and [__init__]) and stops at the change
    callbacks, which test view-model values; [run_methods] enters those too.
    Registries, strings and numbers are left as they are. *)
Ltac run_statements :=
  lazy beta iota zeta delta
    [__init__ construction_prefix _connect_view_model _connect_widgets
     _setup_shortcuts _show_media_information
     _volume_up _volume_down _speed_up _speed_down _speed_reset
     _next_chapter _prev_chapter _play_clicked _rewind_clicked
     _forward_clicked _cover_clicked _on_volume_button_changed
     _on_seek_bar_position_changed handle run
     then_ call_view_model call_speed_view_model view_model_bind_to
     on_seek_bar_container on_play_button on_volume_button on_cover_img
     on_title_label on_subtitle_label on_playback_speed_button
     on_container_bar on_seek_bar on_sleep_timer
     update_self update_view_model log connect create_action
     Label_set_text Label_set_tooltip_text Label_set_visible
     Image_set_visible Image_set_from_paintable Image_set_from_icon_name
     Image_set_pixel_size Image_set_cursor Image_add_controller
     Button_set_icon_name ScaleButton_set_value ScaleButton_set_icons
     MenuButton_set_popover Box_append Revealer_set_child
     Revealer_set_reveal_child SeekBar_set_position SeekBar_set_length
     SeekBar_set_visible
     self _playback_control_view_model _artwork_cache main_window
     connections trace actions
     seek_bar_container play_button prev_button next_button volume_button
     cover_img title_label subtitle_label playback_speed_button timer_button
     timer_image container_bar seek_bar sleep_timer scale_factor
     PlaybackControlViewModel.book PlaybackControlViewModel.playing
     PlaybackControlViewModel.length PlaybackControlViewModel.relative_position
     PlaybackControlViewModel.lock_ui PlaybackControlViewModel.volume
     PlaybackControlViewModel.observers
     SeekBar.position SeekBar.length SeekBar.visible
     text tooltip_text label_visible image_visible image_source_of pixel_size
     cursor controllers icon_name value icons popover children child
     reveal_child].

Ltac run_methods :=
  unfold invoke, _on_book_changed, _on_play_changed, _on_position_changed,
    _on_length_changed, _on_lock_ui_changed, _on_volume_changed,
    _set_book, _set_cover_image;
  run_statements.

(** Name the parts of a world, and split on the tests a body makes on
    view-model values and on the artwork cache. *)
Ltac split_world w := destruct w as [[] [] ? ? ? ?].

Ltac split_tests :=
  repeat match goal with
  | |- context [match get_cover_paintable ?a ?b ?c ?d with _ => _ end] =>
      destruct (get_cover_paintable a b c d)
  | |- context [if truthy_number ?n then _ else _] => destruct (truthy_number n)
  | |- context [match ?x with Some _ => _ | None => _ end] => is_var x; destruct x
  | |- context [if ?x then _ else _] => is_var x; destruct x
  end.

Lemma connect_view_model_observers (w : World) :
  PlaybackControlViewModel.observers (vm (_connect_view_model w))
  = Binder.bind_all view_model_bindings (PlaybackControlViewModel.observers (vm w)).
Proof. run_statements. reflexivity. Qed.

Lemma connect_view_model_trace (w : World) :
  trace (_connect_view_model w)
  = trace w ++ ((λ b, PlaybackControl (bind_to b.1 b.2)) <$> view_model_bindings).
Proof.
  run_statements. unfold view_model_bindings.
  cbn [fmap list_fmap fst snd]. by rewrite <- !app_assoc.
Qed.

Lemma invoke_trace (cb : callback) (w : World) :
  trace (invoke cb w) = trace w ++ [Invoked cb].
Proof. destruct cb; split_world w; run_methods; split_tests; reflexivity. Qed.

Lemma invoke_view_model (cb : callback) (w : World) : vm (invoke cb w) = vm w.
Proof. destruct cb; split_world w; run_methods; split_tests; reflexivity. Qed.

Lemma invoke_play_button (cb : callback) (w : World) :
  cb ≠ self_on_play_changed →
  play_button (self (invoke cb w)) = play_button (self w).
Proof.
  intros Hcb. destruct cb; try done; split_world w; run_methods; split_tests;
    reflexivity.
Qed.

Lemma handle_forwards (h : handler) (arg : Q) (w : World) (c : event) :
  forwarded h arg = Some c →
  handle h arg w = log c (log (Handled h) w).
Proof. destruct h; intros [= <-]; reflexivity. Qed.

Lemma connect_widgets_connected (w : World) :
  newly_connected _connect_widgets w
  = [self_play_clicked; self_on_volume_button_changed;
     self_on_seek_bar_position_changed; self_rewind_clicked;
     self_forward_clicked; self_rewind_clicked; self_forward_clicked;
     self_cover_clicked].
Proof.
  unfold newly_connected. run_statements.
  rewrite <- !app_assoc, drop_app_length. reflexivity.
Qed.

Lemma setup_shortcuts_bound (w : World) :
  newly_bound _setup_shortcuts w
  = [self_play_clicked; self_rewind_clicked; self_forward_clicked;
     self_volume_up; self_volume_down; self_speed_up; self_speed_down;
     self_speed_reset; self_prev_chapter; self_next_chapter].
Proof.
  unfold newly_bound. run_statements.
  rewrite <- !app_assoc, drop_app_length. reflexivity.
Qed.

(** C2.  Every handler that [_connect_widgets] connects to a widget signal or
    [_setup_shortcuts] binds to a keyboard action makes, when it runs, exactly
    one call to a view model, the one [forwarded] lists for it, and changes
    nothing else: the controller and its widgets, the view-model state and the
    two registration tables are as before. *)
Theorem handlers_forward_one_call
    (w0 : World) (h : handler) (arg : Q) (w : World) :
  h ∈ newly_connected _connect_widgets w0 ++ newly_bound _setup_shortcuts w0 →
  ∃ c, forwarded h arg = Some c
     ∧ is_view_model_call c = true
     ∧ filter (λ e, is_view_model_call e = true) (emitted (handle h arg) w) = [c]
     ∧ trace (handle h arg w) = trace w ++ [Handled h; c]
     ∧ self (handle h arg w) = self w
     ∧ vm (handle h arg w) = vm w
     ∧ connections (handle h arg w) = connections w
     ∧ main_window (handle h arg w) = main_window w.
Proof.
  rewrite connect_widgets_connected, setup_shortcuts_bound.
  intros Hin.
  assert (∃ c, forwarded h arg = Some c ∧ is_view_model_call c = true)
    as (c & Hc & Hvm).
  { destruct h; try (eexists; split; reflexivity).
    exfalso. rewrite list_elem_of_In in Hin. cbn in Hin. intuition discriminate. }
  exists c. split; [done|]. split; [done|].
  unfold emitted. rewrite (handle_forwards h arg w c Hc).
  cbn [log trace self _playback_control_view_model connections main_window].
  rewrite <- app_assoc, drop_app_length. cbn [app].
  split; [|done].
  rewrite filter_cons_False by (cbn; congruence).
  rewrite filter_cons_True by done. done.
Qed.

Section BindingFacts.
Context {Cb : Type}.

Lemma bound_to_not_bound P (bs : list (string * Cb)) :
  P ∉ bs.*1 → Binder.bound_to P bs = [].
Proof.
  induction bs as [|[Q cb] bs IH]; [done|].
  cbn [fmap list_fmap fst Binder.bound_to]. rewrite not_elem_of_cons.
  intros [Hne Hnot]. rewrite decide_False by done. auto.
Qed.

Lemma filter_name_length P (bs : list (string * Cb)) :
  length (filter (λ b, b.1 = P) bs) = length (Binder.bound_to P bs).
Proof.
  induction bs as [|[Q cb] bs IH]; [done|].
  cbn [Binder.bound_to]. destruct (decide (Q = P)) as [->|Hne].
  - rewrite filter_cons_True by done. cbn [length]. by rewrite IH.
  - by rewrite filter_cons_False.
Qed.

End BindingFacts.

Lemma view_model_bindings_cases (P : string) (cb : callback) :
  (P, cb) ∈ view_model_bindings →
  Binder.bound_to P view_model_bindings = [cb].
Proof.
  unfold view_model_bindings. rewrite !elem_of_cons, elem_of_nil.
  intros [H|[H|[H|[H|[H|[H|[]]]]]]]; injection H as -> ->; reflexivity.
Qed.

Lemma view_model_bindings_names :
  view_model_bindings.*1 = ["book"; "playing"; "length"; "position"; "lock_ui"; "volume"].
Proof. reflexivity. Qed.

Lemma emitted_connect_view_model (w : World) :
  emitted _connect_view_model w
  = (λ b, PlaybackControl (bind_to b.1 b.2)) <$> view_model_bindings.
Proof. unfold emitted. by rewrite connect_view_model_trace, drop_app_length. Qed.

(** C3.  [_connect_view_model] makes six calls to [bind_to] and nothing else:
    one for each of "book", "playing", "length", "position", "lock_ui" and
    "volume", so every one of these names is bound exactly once and no other
    name is bound; accordingly each of the six properties gains exactly one
    callback and every other property gains none. *)
Theorem connect_view_model_binds_each_name_once (w : World) :
  emitted _connect_view_model w
  = [PlaybackControl (bind_to "book" self_on_book_changed);
     PlaybackControl (bind_to "playing" self_on_play_changed);
     PlaybackControl (bind_to "length" self_on_length_changed);
     PlaybackControl (bind_to "position" self_on_position_changed);
     PlaybackControl (bind_to "lock_ui" self_on_lock_ui_changed);
     PlaybackControl (bind_to "volume" self_on_volume_changed)]
  ∧ (∀ P : string,
       length (filter (λ b, b.1 = P) (bind_to_calls (emitted _connect_view_model w)))
       = if bool_decide
              (P ∈ ["book"; "playing"; "length"; "position"; "lock_ui"; "volume"])
         then 1 else 0)
  ∧ (∀ P cb, (P, cb) ∈ view_model_bindings →
       Binder.callbacks (PlaybackControlViewModel.observers (vm (_connect_view_model w))) P
       = Binder.callbacks (PlaybackControlViewModel.observers (vm w)) P ++ [cb])
  ∧ (∀ P, P ∉ ["book"; "playing"; "length"; "position"; "lock_ui"; "volume"] →
       Binder.callbacks (PlaybackControlViewModel.observers (vm (_connect_view_model w))) P
       = Binder.callbacks (PlaybackControlViewModel.observers (vm w)) P).
Proof.
  rewrite emitted_connect_view_model. split; [reflexivity|].
  split; [|split].
  - intros P.
    assert (bind_to_calls
              ((λ b, PlaybackControl (bind_to b.1 b.2)) <$> view_model_bindings)
            = view_model_bindings) as -> by reflexivity.
    rewrite filter_name_length. case_bool_decide as HP.
    + rewrite <- view_model_bindings_names in HP.
      apply list_elem_of_fmap in HP as ([Q cb] & -> & Hin).
      cbn [fst]. by rewrite (view_model_bindings_cases _ _ Hin).
    + rewrite bound_to_not_bound; [done|]. by rewrite view_model_bindings_names.
  - intros P cb Hin. rewrite connect_view_model_observers, callbacks_bind_all.
    by rewrite (view_model_bindings_cases _ _ Hin).
  - intros P HP. rewrite connect_view_model_observers, callbacks_bind_all.
    rewrite bound_to_not_bound; [by rewrite app_nil_r|].
    by rewrite view_model_bindings_names.
Qed.

(** *** Construction, statement by statement *)

Lemma init_steps b s (w : World) :
  __init__ b s w
  = _setup_shortcuts
      (invoke self_on_volume_changed
        (invoke self_on_position_changed
          (invoke self_on_length_changed
            (invoke self_on_lock_ui_changed
              (invoke self_on_book_changed
                (_connect_widgets
                  (_connect_view_model (construction_prefix b s w)))))))).
Proof. unfold __init__, construction_prefix, invoke, then_. reflexivity. Qed.

Lemma construction_prefix_frame b s (w : World) :
  trace (construction_prefix b s w) = trace w
  ∧ vm (construction_prefix b s w) = vm w
  ∧ play_button (self (construction_prefix b s w)) = play_button (self w).
Proof. split_world w. by run_statements. Qed.

Lemma connect_view_model_self (w : World) : self (_connect_view_model w) = self w.
Proof. split_world w. by run_statements. Qed.

Lemma connect_widgets_frame (w : World) :
  trace (_connect_widgets w) = trace w
  ∧ vm (_connect_widgets w) = vm w
  ∧ play_button (self (_connect_widgets w)) = play_button (self w).
Proof. split_world w. by run_statements. Qed.

Lemma setup_shortcuts_frame (w : World) :
  trace (_setup_shortcuts w) = trace w
  ∧ vm (_setup_shortcuts w) = vm w
  ∧ self (_setup_shortcuts w) = self w.
Proof. split_world w. by run_statements. Qed.

Lemma init_trace b s (w : World) :
  trace (__init__ b s w)
  = trace w
    ++ ((λ b, PlaybackControl (bind_to b.1 b.2)) <$> view_model_bindings)
    ++ [Invoked self_on_book_changed; Invoked self_on_lock_ui_changed;
        Invoked self_on_length_changed; Invoked self_on_position_changed;
        Invoked self_on_volume_changed].
Proof.
  rewrite init_steps.
  rewrite (proj1 (setup_shortcuts_frame _)), !invoke_trace.
  rewrite (proj1 (connect_widgets_frame _)), connect_view_model_trace.
  rewrite (proj1 (construction_prefix_frame _ _ _)).
  by rewrite <- !app_assoc.
Qed.

Lemma init_observers b s (w : World) :
  PlaybackControlViewModel.observers (vm (__init__ b s w))
  = Binder.bind_all view_model_bindings (PlaybackControlViewModel.observers (vm w)).
Proof.
  rewrite init_steps.
  rewrite (proj1 (proj2 (setup_shortcuts_frame _))), !invoke_view_model.
  rewrite (proj1 (proj2 (connect_widgets_frame _))), connect_view_model_observers.
  by rewrite (proj1 (proj2 (construction_prefix_frame _ _ _))).
Qed.

Lemma init_play_button b s (w : World) :
  play_button (self (__init__ b s w)) = play_button (self w).
Proof.
  rewrite init_steps.
  rewrite (proj2 (proj2 (setup_shortcuts_frame _))).
  rewrite !invoke_play_button by done.
  rewrite (proj2 (proj2 (connect_widgets_frame _))), connect_view_model_self.
  by rewrite (proj2 (proj2 (construction_prefix_frame _ _ _))).
Qed.

(** C8.  Construction first makes the six registrations and then calls the
    change handlers of "book", "lock_ui", "length", "position" and "volume",
    each once and in that order; [_on_play_changed] is not among the calls,
    and the play button is left as the template built it, whatever the view
    model's [playing] is. *)
Theorem init_synchronises_all_but_play (b : Builder) (s : SeekBar.t) (w : World) :
  emitted (__init__ b s) w
  = [PlaybackControl (bind_to "book" self_on_book_changed);
     PlaybackControl (bind_to "playing" self_on_play_changed);
     PlaybackControl (bind_to "length" self_on_length_changed);
     PlaybackControl (bind_to "position" self_on_position_changed);
     PlaybackControl (bind_to "lock_ui" self_on_lock_ui_changed);
     PlaybackControl (bind_to "volume" self_on_volume_changed);
     Invoked self_on_book_changed; Invoked self_on_lock_ui_changed;
     Invoked self_on_length_changed; Invoked self_on_position_changed;
     Invoked self_on_volume_changed]
  ∧ invocations (emitted (__init__ b s) w)
    = [self_on_book_changed; self_on_lock_ui_changed; self_on_length_changed;
       self_on_position_changed; self_on_volume_changed]
  ∧ (self_on_play_changed ∉ invocations (emitted (__init__ b s) w))
  ∧ play_button (self (__init__ b s w)) = play_button (self w).
Proof.
  unfold emitted. rewrite init_trace, drop_app_length.
  split; [reflexivity|]. split; [reflexivity|]. split; [|apply init_play_button].
  cbn. rewrite !not_elem_of_cons, elem_of_nil. naive_solver.
Qed.

(** C9.  [_on_book_changed] with no book hides the title, the subtitle, the
    cover and the seek bar and leaves the two labels' text and tooltip and
    the cover's image as they were; with a book it shows all four and sets
    the title to the book's name and the subtitle to the name of its current
    chapter. *)
Theorem on_book_changed_shows_or_hides (w : World) :
  let c := self w in
  let c' := self (_on_book_changed w) in
  match PlaybackControlViewModel.book (vm w) with
  | None =>
      label_visible (title_label c') = false
      ∧ label_visible (subtitle_label c') = false
      ∧ image_visible (cover_img c') = false
      ∧ SeekBar.visible (seek_bar c') = false
      ∧ text (title_label c') = text (title_label c)
      ∧ tooltip_text (title_label c') = tooltip_text (title_label c)
      ∧ text (subtitle_label c') = text (subtitle_label c)
      ∧ tooltip_text (subtitle_label c') = tooltip_text (subtitle_label c)
      ∧ image_source_of (cover_img c') = image_source_of (cover_img c)
      ∧ pixel_size (cover_img c') = pixel_size (cover_img c)
  | Some b =>
      label_visible (title_label c') = true
      ∧ label_visible (subtitle_label c') = true
      ∧ image_visible (cover_img c') = true
      ∧ SeekBar.visible (seek_bar c') = true
      ∧ text (title_label c') = book_name b
      ∧ text (subtitle_label c') = chapter_name (current_chapter b)
  end.
Proof.
  split_world w. run_methods. split_tests; run_statements; repeat split; reflexivity.
Qed.

(** C10.  [_on_position_changed] leaves the controller and every widget as
    they were when the view model's [relative_position] is [None]; otherwise
    it assigns exactly that value to the seek bar's position (and nothing
    else changes). *)
Theorem on_position_changed_sets_position (w : World) :
  match PlaybackControlViewModel.relative_position (vm w) with
  | None => self (_on_position_changed w) = self w
  | Some p =>
      SeekBar.position (seek_bar (self (_on_position_changed w))) = p
      ∧ self (_on_position_changed w) = self (on_seek_bar (SeekBar_set_position p) w)
  end.
Proof.
  split_world w. run_methods. split_tests; run_statements; repeat split; reflexivity.
Qed.

(** *** What no operation does *)

Lemma bind_to_calls_app (t1 t2 : list event) :
  bind_to_calls (t1 ++ t2) = bind_to_calls t1 ++ bind_to_calls t2.
Proof. apply omap_app. Qed.

Lemma run_without_bind (op : operation) (w : World) :
  registers op = false →
  vm (run op w) = vm w
  ∧ bind_to_calls (trace (run op w)) = bind_to_calls (trace w).
Proof.
  destruct op as [| | | |b|v|[b|]|cb|h arg]; try discriminate; intros _;
    cbn [run].
  - by destruct (connect_widgets_frame w) as (-> & -> & _).
  - by destruct (setup_shortcuts_frame w) as (-> & -> & _).
  - split_world w. run_methods. split_tests; by run_statements.
  - split_world w. by run_statements.
  - split_world w. run_methods. split_tests; by run_statements.
  - done.
  - rewrite invoke_view_model, invoke_trace, bind_to_calls_app.
    cbn. by rewrite app_nil_r.
  - destruct h; split_world w; run_statements;
      rewrite ?bind_to_calls_app; cbn; by rewrite ?app_nil_r.
Qed.

Lemma run_registry_grows (op : operation) (w : World) (P : string) :
  Binder.callbacks (PlaybackControlViewModel.observers (vm w)) P
  `prefix_of`
  Binder.callbacks (PlaybackControlViewModel.observers (vm (run op w))) P.
Proof.
  destruct (registers op) eqn:Hop.
  - destruct op; try discriminate; cbn [run].
    + rewrite init_observers, callbacks_bind_all. by apply prefix_app_r.
    + rewrite connect_view_model_observers, callbacks_bind_all. by apply prefix_app_r.
  - by rewrite (proj1 (run_without_bind op w Hop)).
Qed.

(** C6.  Construction makes the six registrations of [_connect_view_model]
    (and makes them through [bind_to]); every operation of the controller
    other than construction and [_connect_view_model] itself makes no call to
    [bind_to] and leaves the view model, registry included, as it found it;
    and along any sequence of operations the callbacks registered for a
    property are only ever extended at the end, never removed or reordered. *)
Theorem registrations_made_at_construction_and_kept :
  (∀ b s w,
     PlaybackControlViewModel.observers (vm (__init__ b s w))
     = Binder.bind_all view_model_bindings (PlaybackControlViewModel.observers (vm w))
     ∧ bind_to_calls (emitted (__init__ b s) w) = view_model_bindings)
  ∧ (∀ op w, registers op = false →
       vm (run op w) = vm w
       ∧ bind_to_calls (trace (run op w)) = bind_to_calls (trace w))
  ∧ (∀ ops w P,
       Binder.callbacks (PlaybackControlViewModel.observers (vm w)) P
       `prefix_of`
       Binder.callbacks (PlaybackControlViewModel.observers (vm (run_all ops w))) P).
Proof.
  split; [|split].
  - intros b s w. split; [apply init_observers|].
    unfold emitted. by rewrite init_trace, drop_app_length.
  - apply run_without_bind.
  - intros ops. unfold run_all.
    induction ops as [|op ops IH]; intros w P; cbn [foldl]; [done|].
    etrans; [apply (run_registry_grows op)|apply IH].
Qed.

(** *** Callbacks read the view model when they run *)

Lemma invoke_shows_view_model (cb : callback) (w : World) :
  shows_view_model cb (vm w) (self (invoke cb w)).
Proof.
  destruct cb; split_world w; unfold shows_view_model; run_methods.
  - intros b [= ->]. split_tests; by run_statements.
  - split_tests; by run_statements.
  - intros n [= ->] ->. by run_statements.
  - by intros p [= ->].
  - done.
  - done.
Qed.

(** C5.  A change callback takes no argument (its type is [World → World])
    and copies into the controller what the view model holds when the
    callback runs.  In particular, when the view model's only observer of
    "volume" is [_on_volume_changed] and the view model sets its volume to
    [v] and notifies, that callback is invoked once, finds the volume [v] in
    the view model, and leaves the value [v] in the volume button. *)
Theorem volume_callback_reads_current_value (v : Q) (w : World) :
  Binder.callbacks (PlaybackControlViewModel.observers (vm w)) "volume"
    = [self_on_volume_changed] →
  let r := view_model_set_volume v w in
  r.1.*1 = [self_on_volume_changed]
  ∧ (∀ cb wi, (cb, wi) ∈ r.1 → PlaybackControlViewModel.volume (vm wi) = v)
  ∧ value (volume_button (self r.2)) = v
  ∧ PlaybackControlViewModel.volume (vm r.2) = v
  ∧ invocations (trace r.2) = invocations (trace w) ++ [self_on_volume_changed]
  ∧ (∀ cb w', shows_view_model cb (vm w') (self (invoke cb w'))).
Proof.
  intros Hobs r. subst r.
  unfold view_model_set_volume, view_model_notify, Binder.notify.
  set (w1 := update_view_model _ w).
  assert (PlaybackControlViewModel.observers (vm w1)
          = PlaybackControlViewModel.observers (vm w)) as Hsame
    by (subst w1; split_world w; reflexivity).
  assert (PlaybackControlViewModel.volume (vm w1) = v) as Hvol
    by (subst w1; split_world w; reflexivity).
  assert (trace w1 = trace w) as Htrace
    by (subst w1; split_world w; reflexivity).
  rewrite Hsame, Hobs. cbn [Binder.dispatch fst snd fmap list_fmap].
  split; [done|]. split.
  { intros cb wi. rewrite list_elem_of_singleton. by intros [= _ ->]. }
  split.
  { rewrite <- Hvol. apply (invoke_shows_view_model self_on_volume_changed). }
  split; [by rewrite invoke_view_model|]. split.
  { rewrite invoke_trace, Htrace. unfold invocations. by rewrite omap_app. }
  apply invoke_shows_view_model.
Qed.

(** ** The properties on the concrete world *)

(** After construction the view model is playing while the play button still
    shows the "start" icon of the template. *)
Example constructed_play_button_stale :
  PlaybackControlViewModel.playing (vm constructed_world) = true
  ∧ icon_name (play_button (self constructed_world)) = "media-playback-start-symbolic".
Proof. split; vm_compute; reflexivity. Qed.

Example constructed_volume_button :
  value (volume_button (self constructed_world)) = (1 # 2)%Q.
Proof. vm_compute. reflexivity. Qed.

(** With a book the labels are filled and shown; once the book is gone the
    labels are hidden but keep the old text. *)
Example constructed_title :
  text (title_label (self constructed_world)) = "Dune"
  ∧ label_visible (title_label (self constructed_world)) = true
  ∧ text (title_label (self (_on_book_changed idle_world))) = "Dune"
  ∧ label_visible (title_label (self (_on_book_changed idle_world))) = false.
Proof. repeat split; vm_compute; reflexivity. Qed.

Example idle_position_kept :
  SeekBar.position (seek_bar (self constructed_world)) = (1 # 4)%Q
  ∧ SeekBar.position (seek_bar (self (_on_position_changed idle_world))) = (1 # 4)%Q.
Proof. split; vm_compute; reflexivity. Qed.

(** Two callbacks on one property run in the order they were bound. *)
Example two_callbacks_in_order :
  (Binder.notify invoke
     (Binder.bind_all [("volume", self_on_volume_changed); ("volume", self_on_play_changed)] ∅)
     "volume" example_world).1.*1
  = [self_on_volume_changed; self_on_play_changed].
Proof. vm_compute. reflexivity. Qed.

Lemma notify_invokes_registered_in_order_witness :
  (Binder.notify invoke (Binder.bind_all view_model_bindings ∅) "volume"
     constructed_world).1 !! 0%nat
    = Some (self_on_volume_changed, constructed_world)
  ∧ constructed_world
    = foldl (λ w cb, invoke cb w) constructed_world
        (take 0 (Binder.bound_to "volume" view_model_bindings)).
Proof.
  split; [reflexivity|].
  apply (proj1 (proj2 (notify_invokes_registered_in_order
                         invoke view_model_bindings "volume" constructed_world))
           0%nat self_on_volume_changed constructed_world).
  reflexivity.
Defined.

Lemma handlers_forward_one_call_witness :
  self_on_volume_button_changed
    ∈ newly_connected _connect_widgets example_world
      ++ newly_bound _setup_shortcuts example_world
  ∧ ∃ c, forwarded self_on_volume_button_changed (4 # 5)%Q = Some c
       ∧ is_view_model_call c = true
       ∧ filter (λ e, is_view_model_call e = true)
           (emitted (handle self_on_volume_button_changed (4 # 5)%Q) constructed_world)
         = [c]
       ∧ trace (handle self_on_volume_button_changed (4 # 5)%Q constructed_world)
         = trace constructed_world ++ [Handled self_on_volume_button_changed; c]
       ∧ self (handle self_on_volume_button_changed (4 # 5)%Q constructed_world)
         = self constructed_world
       ∧ vm (handle self_on_volume_button_changed (4 # 5)%Q constructed_world)
         = vm constructed_world
       ∧ connections (handle self_on_volume_button_changed (4 # 5)%Q constructed_world)
         = connections constructed_world
       ∧ main_window (handle self_on_volume_button_changed (4 # 5)%Q constructed_world)
         = main_window constructed_world.
Proof.
  assert (self_on_volume_button_changed
            ∈ newly_connected _connect_widgets example_world
              ++ newly_bound _setup_shortcuts example_world) as Hin.
  { apply (bool_decide_unpack _). vm_compute. exact I. }
  split; [exact Hin|].
  exact (handlers_forward_one_call example_world self_on_volume_button_changed
           (4 # 5)%Q constructed_world Hin).
Defined.

Lemma connect_view_model_binds_each_name_once_witness :
  ("volume", self_on_volume_changed) ∈ view_model_bindings
  ∧ Binder.callbacks
      (PlaybackControlViewModel.observers (vm (_connect_view_model example_world)))
      "volume"
    = Binder.callbacks (PlaybackControlViewModel.observers (vm example_world)) "volume"
      ++ [self_on_volume_changed].
Proof.
  assert (("volume", self_on_volume_changed) ∈ view_model_bindings) as Hin.
  { apply (bool_decide_unpack _). vm_compute. exact I. }
  split; [exact Hin|].
  exact (proj1 (proj2 (proj2 (connect_view_model_binds_each_name_once example_world)))
           "volume" self_on_volume_changed Hin).
Defined.

Lemma notify_other_property_not_invoked_witness :
  "book" ≠ "volume"
  ∧ ("book", self_on_book_changed) ∈ view_model_bindings
  ∧ self_on_book_changed
      ∉ (Binder.notify invoke (Binder.bind_all view_model_bindings ∅) "volume"
           constructed_world).1.*1.
Proof.
  assert ("book" ≠ "volume") as Hne by discriminate.
  assert (("book", self_on_book_changed) ∈ view_model_bindings) as Hin.
  { apply (bool_decide_unpack _). vm_compute. exact I. }
  split; [exact Hne|]. split; [exact Hin|].
  apply (notify_other_property_not_invoked invoke view_model_bindings
           "book" "volume" self_on_book_changed constructed_world Hne Hin).
  intros R HR. unfold view_model_bindings in HR.
  rewrite !elem_of_cons, elem_of_nil in HR.
  destruct HR as [H|[H|[H|[H|[H|[H|[]]]]]]]; by injection H.
Defined.

Lemma volume_callback_reads_current_value_witness :
  Binder.callbacks (PlaybackControlViewModel.observers (vm constructed_world)) "volume"
    = [self_on_volume_changed]
  ∧ PlaybackControlViewModel.volume (vm constructed_world) = (1 # 2)%Q
  ∧ (view_model_set_volume (4 # 5)%Q constructed_world).1.*1 = [self_on_volume_changed]
  ∧ value (volume_button (self (view_model_set_volume (4 # 5)%Q constructed_world).2))
    = (4 # 5)%Q.
Proof.
  assert (Binder.callbacks
            (PlaybackControlViewModel.observers (vm constructed_world)) "volume"
          = [self_on_volume_changed]) as Hobs by (vm_compute; reflexivity).
  pose proof (volume_callback_reads_current_value (4 # 5)%Q constructed_world Hobs)
    as (Hcalls & _ & Hvalue & _).
  split; [exact Hobs|]. split; [vm_compute; reflexivity|].
  split; [exact Hcalls|exact Hvalue].
Defined.

Lemma registrations_made_at_construction_and_kept_witness :
  registers (event_handler self_play_clicked 0%Q) = false
  ∧ vm (run (event_handler self_play_clicked 0%Q) constructed_world)
    = vm constructed_world.
Proof.
  split; [reflexivity|].
  apply (proj1 (proj2 registrations_made_at_construction_and_kept)
           (event_handler self_play_clicked 0%Q) constructed_world).
  reflexivity.
Defined.

Lemma bind_strict_unknown_property_witness :
  ("speed" ∉ (list_to_set view_model_bindings.*1 : gset string))
  ∧ Binder.bind Binder.Strict (list_to_set view_model_bindings.*1) "speed"
      self_on_volume_changed
      (PlaybackControlViewModel.observers (vm constructed_world))
    = (Binder.Raised (Binder.UnknownPropertyError "speed"),
       PlaybackControlViewModel.observers (vm constructed_world)).
Proof.
  assert ("speed" ∉ (list_to_set view_model_bindings.*1 : gset string)) as Hundef.
  { apply (bool_decide_unpack _). vm_compute. exact I. }
  split; [exact Hundef|].
  exact (proj1 (bind_strict_unknown_property
                  (list_to_set view_model_bindings.*1) "speed" self_on_volume_changed
                  (PlaybackControlViewModel.observers (vm constructed_world)) Hundef)).
Defined.

(** * More of the controller *)

(** ** The cover image and the book labels *)


(** X2.  [_set_book] with no book changes nothing at all.  With a book it
    sets text and tooltip of the title to the book's name and text and
    tooltip of the subtitle to the current chapter's name, refreshes the
    cover, and shows or hides nothing: the four visibility flags are the
    callers' business. *)
Theorem set_book_fills_labels (book : option Book) (w : World) :
  let w' := _set_book book w in
  match book with
  | None => w' = w
  | Some b =>
      text (title_label (self w')) = book_name b
      ∧ tooltip_text (title_label (self w')) = Some (book_name b)
      ∧ text (subtitle_label (self w')) = chapter_name (current_chapter b)
      ∧ tooltip_text (subtitle_label (self w')) = Some (chapter_name (current_chapter b))
      ∧ cover_img (self w') = cover_img (self (_set_cover_image b w))
      ∧ label_visible (title_label (self w')) = label_visible (title_label (self w))
      ∧ label_visible (subtitle_label (self w')) = label_visible (subtitle_label (self w))
      ∧ image_visible (cover_img (self w')) = image_visible (cover_img (self w))
      ∧ seek_bar (self w') = seek_bar (self w)
  end.
Proof.
  destruct book as [b|]; [|reflexivity].
  split_world w. unfold _set_book, _set_cover_image. run_statements.
  destruct (get_cover_paintable _ _ _ _); run_statements; repeat split; reflexivity.
Qed.

(** X3.  [_show_media_information] gives the title, the subtitle, the cover
    and the seek bar the visibility it is passed and keeps their content
    (texts, tooltips, image, position, length); of two calls in a row the
    later one decides. *)
Theorem show_media_information_sets_four_flags (v v0 : bool) (w : World) :
  let w' := _show_media_information v w in
  label_visible (title_label (self w')) = v
  ∧ label_visible (subtitle_label (self w')) = v
  ∧ image_visible (cover_img (self w')) = v
  ∧ SeekBar.visible (seek_bar (self w')) = v
  ∧ text (title_label (self w')) = text (title_label (self w))
  ∧ tooltip_text (title_label (self w')) = tooltip_text (title_label (self w))
  ∧ text (subtitle_label (self w')) = text (subtitle_label (self w))
  ∧ tooltip_text (subtitle_label (self w')) = tooltip_text (subtitle_label (self w))
  ∧ image_source_of (cover_img (self w')) = image_source_of (cover_img (self w))
  ∧ SeekBar.position (seek_bar (self w')) = SeekBar.position (seek_bar (self w))
  ∧ SeekBar.length (seek_bar (self w')) = SeekBar.length (seek_bar (self w))
  ∧ _show_media_information v (_show_media_information v0 w) = w'.
Proof.
  split_world w. run_statements. repeat split; reflexivity.
Qed.

(** ** Length, lock and play *)

Lemma truthy_number_nonzero (n : Q) : truthy_number n = negb (Qnum n =? 0)%Z.
Proof.
  unfold truthy_number, Qeq_bool. cbn [Qnum Qden].
  rewrite Z.mul_1_r, Z.mul_0_l. reflexivity.
Qed.

(** X4.  [_on_length_changed] ignores a length that is [None] and also one
    that is zero: the controller and all its widgets stay as they were, the
    seek bar keeping its previous length.  Any other length is assigned to
    the seek bar, and only the seek bar's length changes.  (A zero
    [relative_position], in contrast, is assigned by
    [_on_position_changed].) *)
Theorem on_length_changed_ignores_none_and_zero (w : World) :
  match PlaybackControlViewModel.length (vm w) with
  | None => self (_on_length_changed w) = self w
  | Some n =>
      if (Qnum n =? 0)%Z
      then self (_on_length_changed w) = self w
      else SeekBar.length (seek_bar (self (_on_length_changed w))) = n
           ∧ self (_on_length_changed w) = self (on_seek_bar (SeekBar_set_length n) w)
  end
  ∧ (PlaybackControlViewModel.relative_position (vm w) = Some 0%Q →
     SeekBar.position (seek_bar (self (_on_position_changed w))) = 0%Q).
Proof.
  split_world w. unfold _on_length_changed, _on_position_changed. run_statements.
  split.
  - destruct length as [n|]; run_statements; [|reflexivity].
    rewrite truthy_number_nonzero.
    destruct (Qnum n =? 0)%Z; cbn [negb]; run_statements; [reflexivity|].
    split; reflexivity.
  - intros ->. reflexivity.
Qed.

(** ** How change callbacks compose *)

(** Split on the tests of several bodies run in a row: a test met again is
    settled by the equation of its first split. *)
Ltac split_repeated_tests :=
  repeat match goal with
  | |- context [match get_cover_paintable ?a ?b ?c ?d with _ => _ end] =>
      let E := fresh "Hcover" in
      destruct (get_cover_paintable a b c d) eqn:E; rewrite ?E
  | |- context [if truthy_number ?n then _ else _] =>
      let E := fresh "Hnumber" in
      destruct (truthy_number n) eqn:E; rewrite ?E
  | |- context [match ?x with Some _ => _ | None => _ end] => is_var x; destruct x
  | |- context [if ?x then _ else _] => is_var x; destruct x
  end.


(** A change callback replaces the controller and appends its own trace
    entry; the rest of the world passes through. *)
Lemma invoke_shape (cb : callback) (w : World) :
  invoke cb w = log (Invoked cb) (update_self (λ _, self (invoke cb w)) w).
Proof. destruct cb; split_world w; run_methods; split_tests; reflexivity. Qed.

(** Evaluate two callbacks run in a row: the inner one is first brought into
    the shape above, so that the outer one reads the view model directly. *)
Ltac run_two_callbacks :=
  unfold truthy_number, Qeq_bool;
  lazy beta iota zeta delta
    [_on_book_changed _on_play_changed _on_position_changed
     _on_length_changed _on_lock_ui_changed _on_volume_changed
     _set_book _set_cover_image _show_media_information invoke
     then_ on_seek_bar_container on_play_button on_volume_button on_cover_img
     on_title_label on_subtitle_label on_playback_speed_button
     on_container_bar on_seek_bar on_sleep_timer
     update_self update_view_model log
     Label_set_text Label_set_tooltip_text Label_set_visible
     Image_set_visible Image_set_from_paintable Image_set_from_icon_name
     Image_set_pixel_size Button_set_icon_name ScaleButton_set_value
     Revealer_set_reveal_child SeekBar_set_position SeekBar_set_length
     SeekBar_set_visible
     self _playback_control_view_model _artwork_cache main_window
     connections trace
     seek_bar_container play_button prev_button next_button volume_button
     cover_img title_label subtitle_label playback_speed_button timer_button
     timer_image container_bar seek_bar sleep_timer scale_factor
     PlaybackControlViewModel.book PlaybackControlViewModel.playing
     PlaybackControlViewModel.length PlaybackControlViewModel.relative_position
     PlaybackControlViewModel.lock_ui PlaybackControlViewModel.volume
     PlaybackControlViewModel.observers
     SeekBar.position SeekBar.length SeekBar.visible
     text tooltip_text label_visible image_visible image_source_of pixel_size
     cursor controllers icon_name value icons popover children child
     reveal_child
     negb Qnum Qden Z.mul Z.eqb].

(** Split on the view-model value each callback in the goal tests. *)
Ltac split_reads bk pl len pos :=
  try (match goal with
       | |- context [invoke self_on_book_changed _] => destruct bk end);
  try (match goal with
       | |- context [invoke self_on_play_changed _] => destruct pl end);
  try (match goal with
       | |- context [invoke self_on_length_changed _] =>
           destruct len as [[[| |] ]|] end);
  try (match goal with
       | |- context [invoke self_on_position_changed _] => destruct pos end).

(** X6.  Running a change callback a second time, with the view model
    unchanged, leaves the controller and its widgets exactly as the first run
    left them. *)
Theorem callbacks_idempotent (cb : callback) (w : World) :
  self (invoke cb (invoke cb w)) = self (invoke cb w).
Proof.
  rewrite (invoke_shape cb w) at 1.
  destruct w as [[] [bk pl len pos lk vol obs] ? ? ? ?].
  destruct cb; split_reads bk pl len pos; run_two_callbacks;
    split_repeated_tests; simplify_eq; run_two_callbacks; reflexivity.
Qed.

(** X7.  Two change callbacks write to different widget attributes, so the
    controller ends in the same state whichever of them runs first. *)
Theorem callbacks_commute (cb1 cb2 : callback) (w : World) :
  self (invoke cb1 (invoke cb2 w)) = self (invoke cb2 (invoke cb1 w)).
Proof.
  rewrite (invoke_shape cb2 w), (invoke_shape cb1 w).
  destruct w as [[] [bk pl len pos lk vol obs] ? ? ? ?].
  destruct cb1, cb2; try reflexivity;
    split_reads bk pl len pos; run_two_callbacks;
    split_repeated_tests; simplify_eq; run_two_callbacks; reflexivity.
Qed.

(** ** Which widgets a callback writes *)

Lemma invoke_frame (cb : callback) (w : World) :
  let c := self w in
  let c' := self (invoke cb w) in
  (cb ≠ self_on_book_changed →
     title_label c' = title_label c
     ∧ subtitle_label c' = subtitle_label c
     ∧ cover_img c' = cover_img c
     ∧ SeekBar.visible (seek_bar c') = SeekBar.visible (seek_bar c))
  ∧ (cb ≠ self_on_play_changed → play_button c' = play_button c)
  ∧ (cb ≠ self_on_length_changed →
       SeekBar.length (seek_bar c') = SeekBar.length (seek_bar c))
  ∧ (cb ≠ self_on_position_changed →
       SeekBar.position (seek_bar c') = SeekBar.position (seek_bar c))
  ∧ (cb ≠ self_on_lock_ui_changed → container_bar c' = container_bar c)
  ∧ (cb ≠ self_on_volume_changed → volume_button c' = volume_button c)
  ∧ seek_bar_container c' = seek_bar_container c
  ∧ prev_button c' = prev_button c
  ∧ next_button c' = next_button c
  ∧ playback_speed_button c' = playback_speed_button c
  ∧ timer_button c' = timer_button c
  ∧ timer_image c' = timer_image c
  ∧ sleep_timer c' = sleep_timer c
  ∧ scale_factor c' = scale_factor c.
Proof.
  destruct cb; split_world w; run_methods; split_tests; run_statements;
    repeat first [split | intros ?]; done.
Qed.

(** X8.  Each change callback writes only to its own widgets:
    [_on_book_changed] to the two labels, the cover and the seek bar's
    visibility, [_on_play_changed] to the play button, [_on_length_changed]
    and [_on_position_changed] to the seek bar's length and position,
    [_on_lock_ui_changed] to the container bar, [_on_volume_changed] to the
    volume button.  No callback touches the seek-bar container, the previous
    and next buttons, the speed and timer buttons, the timer image, the sleep
    timer or the scale factor. *)
Theorem callbacks_write_only_their_widgets (cb : callback) (w : World) :
  let c := self w in
  let c' := self (invoke cb w) in
  (cb ≠ self_on_book_changed →
     title_label c' = title_label c
     ∧ subtitle_label c' = subtitle_label c
     ∧ cover_img c' = cover_img c
     ∧ SeekBar.visible (seek_bar c') = SeekBar.visible (seek_bar c))
  ∧ (cb ≠ self_on_play_changed → play_button c' = play_button c)
  ∧ (cb ≠ self_on_length_changed →
       SeekBar.length (seek_bar c') = SeekBar.length (seek_bar c))
  ∧ (cb ≠ self_on_position_changed →
       SeekBar.position (seek_bar c') = SeekBar.position (seek_bar c))
  ∧ (cb ≠ self_on_lock_ui_changed → container_bar c' = container_bar c)
  ∧ (cb ≠ self_on_volume_changed → volume_button c' = volume_button c)
  ∧ seek_bar_container c' = seek_bar_container c
  ∧ prev_button c' = prev_button c
  ∧ next_button c' = next_button c
  ∧ playback_speed_button c' = playback_speed_button c
  ∧ timer_button c' = timer_button c
  ∧ timer_image c' = timer_image c
  ∧ sleep_timer c' = sleep_timer c
  ∧ scale_factor c' = scale_factor c.
Proof. apply invoke_frame. Qed.

Lemma invoke_keeps_labels (cb : callback) (w : World) :
  cb ≠ self_on_book_changed →
  title_label (self (invoke cb w)) = title_label (self w)
  ∧ subtitle_label (self (invoke cb w)) = subtitle_label (self w)
  ∧ cover_img (self (invoke cb w)) = cover_img (self w)
  ∧ SeekBar.visible (seek_bar (self (invoke cb w))) = SeekBar.visible (seek_bar (self w)).
Proof. apply invoke_frame. Qed.

Lemma invoke_keeps_length (cb : callback) (w : World) :
  cb ≠ self_on_length_changed →
  SeekBar.length (seek_bar (self (invoke cb w))) = SeekBar.length (seek_bar (self w)).
Proof. apply invoke_frame. Qed.

Lemma invoke_keeps_position (cb : callback) (w : World) :
  cb ≠ self_on_position_changed →
  SeekBar.position (seek_bar (self (invoke cb w))) = SeekBar.position (seek_bar (self w)).
Proof. apply invoke_frame. Qed.

Lemma invoke_keeps_container_bar (cb : callback) (w : World) :
  cb ≠ self_on_lock_ui_changed →
  container_bar (self (invoke cb w)) = container_bar (self w).
Proof. apply invoke_frame. Qed.

Lemma invoke_keeps_volume_button (cb : callback) (w : World) :
  cb ≠ self_on_volume_changed →
  volume_button (self (invoke cb w)) = volume_button (self w).
Proof. apply invoke_frame. Qed.

(** What each callback writes, for every value the view model may hold. *)
Lemma invoke_writes (w : World) :
  let m := vm w in
  let c := self w in
  volume_button (self (invoke self_on_volume_changed w))
    = ScaleButton_set_value (PlaybackControlViewModel.volume m) (volume_button c)
  ∧ container_bar (self (invoke self_on_lock_ui_changed w))
    = Revealer_set_reveal_child (negb (PlaybackControlViewModel.lock_ui m)) (container_bar c)
  ∧ SeekBar.position (seek_bar (self (invoke self_on_position_changed w)))
    = default (SeekBar.position (seek_bar c)) (PlaybackControlViewModel.relative_position m)
  ∧ SeekBar.length (seek_bar (self (invoke self_on_length_changed w)))
    = match PlaybackControlViewModel.length m with
      | Some n => if (Qnum n =? 0)%Z then SeekBar.length (seek_bar c) else n
      | None => SeekBar.length (seek_bar c)
      end
  ∧ icon_name (play_button (self (invoke self_on_play_changed w)))
    = play_icon (PlaybackControlViewModel.playing m)
  ∧ SeekBar.visible (seek_bar (self (invoke self_on_book_changed w)))
    = truthy_object (PlaybackControlViewModel.book m)
  ∧ label_visible (title_label (self (invoke self_on_book_changed w)))
    = truthy_object (PlaybackControlViewModel.book m)
  ∧ label_visible (subtitle_label (self (invoke self_on_book_changed w)))
    = truthy_object (PlaybackControlViewModel.book m)
  ∧ image_visible (cover_img (self (invoke self_on_book_changed w)))
    = truthy_object (PlaybackControlViewModel.book m)
  ∧ text (title_label (self (invoke self_on_book_changed w)))
    = match PlaybackControlViewModel.book m with
      | Some bk => book_name bk
      | None => text (title_label c)
      end
  ∧ text (subtitle_label (self (invoke self_on_book_changed w)))
    = match PlaybackControlViewModel.book m with
      | Some bk => chapter_name (current_chapter bk)
      | None => text (subtitle_label c)
      end.
Proof.
  destruct w as [[] [bk pl len pos lk vol obs] ? ? ? ?].
  destruct bk, pl, len as [n|], pos; unfold play_icon; run_methods;
    rewrite ?truthy_number_nonzero; try destruct (Qnum n =? 0)%Z; cbn [negb];
    split_tests; run_statements; repeat split; reflexivity.
Qed.

(** The world in which [__init__] starts calling the change handlers. *)
Lemma wired_world (b : Builder) (s : SeekBar.t) (w : World) :
  let w0 := _connect_widgets (_connect_view_model (construction_prefix b s w)) in
  seek_bar (self w0) = s
  ∧ title_label (self w0) = title_label (self w)
  ∧ subtitle_label (self w0) = subtitle_label (self w)
  ∧ PlaybackControlViewModel.book (vm w0) = PlaybackControlViewModel.book (vm w)
  ∧ PlaybackControlViewModel.playing (vm w0) = PlaybackControlViewModel.playing (vm w)
  ∧ PlaybackControlViewModel.length (vm w0) = PlaybackControlViewModel.length (vm w)
  ∧ PlaybackControlViewModel.relative_position (vm w0)
    = PlaybackControlViewModel.relative_position (vm w)
  ∧ PlaybackControlViewModel.lock_ui (vm w0) = PlaybackControlViewModel.lock_ui (vm w)
  ∧ PlaybackControlViewModel.volume (vm w0) = PlaybackControlViewModel.volume (vm w).
Proof. split_world w. run_statements. repeat split; reflexivity. Qed.

(** X9.  When [__init__] returns, the widgets show the view model: the
    volume button holds its volume, the container bar is revealed exactly
    when the UI is not locked, labels, cover and seek bar are visible exactly
    when there is a book, the labels carry the book's and the chapter's name,
    and the seek bar has the view model's position and length, or the fresh
    seek bar's own where the view model has none (or a zero length). *)
Theorem init_leaves_widgets_synchronised (b : Builder) (s : SeekBar.t) (w : World) :
  let m := vm w in
  let c' := self (__init__ b s w) in
  value (volume_button c') = PlaybackControlViewModel.volume m
  ∧ reveal_child (container_bar c') = negb (PlaybackControlViewModel.lock_ui m)
  ∧ SeekBar.position (seek_bar c')
    = default (SeekBar.position s) (PlaybackControlViewModel.relative_position m)
  ∧ SeekBar.length (seek_bar c')
    = match PlaybackControlViewModel.length m with
      | Some n => if (Qnum n =? 0)%Z then SeekBar.length s else n
      | None => SeekBar.length s
      end
  ∧ SeekBar.visible (seek_bar c') = truthy_object (PlaybackControlViewModel.book m)
  ∧ label_visible (title_label c') = truthy_object (PlaybackControlViewModel.book m)
  ∧ label_visible (subtitle_label c') = truthy_object (PlaybackControlViewModel.book m)
  ∧ image_visible (cover_img c') = truthy_object (PlaybackControlViewModel.book m)
  ∧ text (title_label c')
    = match PlaybackControlViewModel.book m with
      | Some bk => book_name bk
      | None => text (title_label (self w))
      end
  ∧ text (subtitle_label c')
    = match PlaybackControlViewModel.book m with
      | Some bk => chapter_name (current_chapter bk)
      | None => text (subtitle_label (self w))
      end.
Proof.
  intros m c'. subst m c'. rewrite init_steps.
  rewrite (proj2 (proj2 (setup_shortcuts_frame _))).
  set (w0 := _connect_widgets (_connect_view_model (construction_prefix b s w))).
  destruct (wired_world b s w) as (Hbar & Htitle & Hsub & Hbook & _ & Hlen & Hpos & Hlock & Hvol).
  fold w0 in Hbar, Htitle, Hsub, Hbook, Hlen, Hpos, Hlock, Hvol.
  set (w1 := invoke self_on_book_changed w0).
  set (w2 := invoke self_on_lock_ui_changed w1).
  set (w3 := invoke self_on_length_changed w2).
  set (w4 := invoke self_on_position_changed w3).
  assert (vm w1 = vm w0) as Hvm1 by apply invoke_view_model.
  assert (vm w2 = vm w0) as Hvm2 by (subst w2; by rewrite invoke_view_model).
  assert (vm w3 = vm w0) as Hvm3 by (subst w3; by rewrite invoke_view_model).
  assert (vm w4 = vm w0) as Hvm4 by (subst w4; by rewrite invoke_view_model).
  destruct (invoke_writes w0) as (_ & _ & _ & _ & _ & Hb1 & Hb2 & Hb3 & Hb4 & Hb5 & Hb6).
  destruct (invoke_writes w1) as (_ & Hw1 & _).
  destruct (invoke_writes w2) as (_ & _ & _ & Hw2 & _).
  destruct (invoke_writes w3) as (_ & _ & Hw3 & _).
  destruct (invoke_writes w4) as (Hw4 & _).
  cbv zeta in Hb1, Hb2, Hb3, Hb4, Hb5, Hb6, Hw1, Hw2, Hw3, Hw4.
  fold w1 in Hb1, Hb2, Hb3, Hb4, Hb5, Hb6, Hw1.
  fold w2 in Hw1, Hw2. fold w3 in Hw2, Hw3. fold w4 in Hw3, Hw4.
  rewrite Hbook, Htitle, Hsub in *.
  split; [by rewrite Hw4, Hvm4, Hvol|].
  split.
  { rewrite invoke_keeps_container_bar by done. subst w4.
    rewrite invoke_keeps_container_bar by done. subst w3.
    rewrite invoke_keeps_container_bar by done.
    by rewrite Hw1, Hvm1, Hlock. }
  split.
  { rewrite invoke_keeps_position by done. rewrite Hw3, Hvm3, Hpos.
    subst w3. rewrite invoke_keeps_position by done.
    subst w2. rewrite invoke_keeps_position by done.
    subst w1. rewrite invoke_keeps_position by done. by rewrite Hbar. }
  split.
  { rewrite invoke_keeps_length by done. subst w4.
    rewrite invoke_keeps_length by done. rewrite Hw2, Hvm2, Hlen.
    subst w2. rewrite invoke_keeps_length by done.
    subst w1. rewrite invoke_keeps_length by done. by rewrite Hbar. }
  destruct (invoke_keeps_labels self_on_volume_changed w4) as (-> & -> & -> & ->); [done|].
  subst w4.
  destruct (invoke_keeps_labels self_on_position_changed w3) as (-> & -> & -> & ->); [done|].
  subst w3.
  destruct (invoke_keeps_labels self_on_length_changed w2) as (-> & -> & -> & ->); [done|].
  subst w2.
  destruct (invoke_keeps_labels self_on_lock_ui_changed w1) as (-> & -> & -> & ->); [done|].
  done.
Qed.

Lemma init_view_model_values (b : Builder) (s : SeekBar.t) (w : World) :
  let m := vm w in
  let m' := vm (__init__ b s w) in
  PlaybackControlViewModel.book m' = PlaybackControlViewModel.book m
  ∧ PlaybackControlViewModel.playing m' = PlaybackControlViewModel.playing m
  ∧ PlaybackControlViewModel.length m' = PlaybackControlViewModel.length m
  ∧ PlaybackControlViewModel.relative_position m'
    = PlaybackControlViewModel.relative_position m
  ∧ PlaybackControlViewModel.lock_ui m' = PlaybackControlViewModel.lock_ui m
  ∧ PlaybackControlViewModel.volume m' = PlaybackControlViewModel.volume m.
Proof.
  intros m m'. subst m m'. rewrite init_steps.
  rewrite (proj1 (proj2 (setup_shortcuts_frame _))), !invoke_view_model.
  destruct (wired_world b s w) as (_ & _ & _ & ? & ? & ? & ? & ? & ?). done.
Qed.

Lemma on_play_changed_icon (w : World) :
  icon_name (play_button (self (_on_play_changed w)))
  = play_icon (PlaybackControlViewModel.playing (vm w)).
Proof. split_world w. unfold play_icon. run_methods. split_tests; reflexivity. Qed.

(** X10.  The play button, which construction leaves as the template built
    it, is put right by the first run of [_on_play_changed]: it then shows
    the pause icon when the view model is playing and the start icon when it
    is not.  Until then no other change callback alters it. *)
Theorem play_button_set_by_first_play_change (b : Builder) (s : SeekBar.t) (w : World) :
  icon_name (play_button (self (_on_play_changed (__init__ b s w))))
    = play_icon (PlaybackControlViewModel.playing (vm w))
  ∧ (∀ cb, cb ≠ self_on_play_changed →
       play_button (self (invoke cb (__init__ b s w))) = play_button (self w)).
Proof.
  split.
  - rewrite on_play_changed_icon. f_equal.
    apply (init_view_model_values b s w).
  - intros cb Hcb. by rewrite invoke_play_button, init_play_button.
Qed.

(** ** Handlers in sequence *)





(** ** The registration tables *)

Lemma setup_shortcuts_actions (w : World) :
  actions (main_window (_setup_shortcuts w))
  = actions (main_window w)
    ++ [("play_pause", self_play_clicked, ["space"]);
        ("seek_rewind", self_rewind_clicked, ["Left"]);
        ("seek_forward", self_forward_clicked, ["Right"]);
        ("volume_up", self_volume_up, ["Up"]);
        ("volume_down", self_volume_down, ["Down"]);
        ("speed_up", self_speed_up, ["plus"; "KP_Add"; "<primary>Up"]);
        ("speed_down", self_speed_down, ["minus"; "KP_Subtract"; "<primary>Down"]);
        ("speed_reset", self_speed_reset, ["equal"]);
        ("prev_chapter", self_prev_chapter, ["Page_Down"; "<primary>Left"]);
        ("next_chapter", self_next_chapter, ["Page_Up"; "<primary>Right"])].
Proof. split_world w. run_statements. by rewrite <- !app_assoc. Qed.

Lemma connect_widgets_connections (w : World) :
  connections (_connect_widgets w)
  = connections w
    ++ [(the_play_button, "clicked", self_play_clicked);
        (the_volume_button, "value-changed", self_on_volume_button_changed);
        (the_seek_bar, "position-changed", self_on_seek_bar_position_changed);
        (the_prev_button, "clicked", self_rewind_clicked);
        (the_next_button, "clicked", self_forward_clicked);
        (the_seek_bar, "rewind", self_rewind_clicked);
        (the_seek_bar, "forward", self_forward_clicked);
        (the_cover_click_gesture, "pressed", self_cover_clicked)].
Proof. split_world w. run_statements. by rewrite <- !app_assoc. Qed.

(** X12.  [_setup_shortcuts] adds ten actions after the ones the window
    already has.  Their names are pairwise different, and so are their
    sixteen accelerators: no key is given to two actions.  Nothing but the
    window's action table changes. *)
Theorem shortcuts_have_distinct_names_and_keys (w : World) :
  let added := new_actions _setup_shortcuts w in
  actions (main_window (_setup_shortcuts w)) = actions (main_window w) ++ added
  ∧ length added = 10
  ∧ NoDup (added.*1.*1)
  ∧ NoDup (concat (added.*2))
  ∧ length (concat (added.*2)) = 16
  ∧ self (_setup_shortcuts w) = self w
  ∧ vm (_setup_shortcuts w) = vm w
  ∧ connections (_setup_shortcuts w) = connections w
  ∧ trace (_setup_shortcuts w) = trace w.
Proof.
  intros added. subst added. unfold new_actions.
  rewrite setup_shortcuts_actions, drop_app_length.
  split; [done|]. split; [done|].
  split; [apply (bool_decide_unpack _); vm_compute; exact I|].
  split; [apply (bool_decide_unpack _); vm_compute; exact I|].
  split; [done|].
  split_world w. run_statements. done.
Qed.

(** X13.  [_connect_widgets] adds eight signal connections after the
    existing ones, no two for the same signal of the same widget, so an
    emitted signal reaches exactly one handler of the controller.  It gives
    the cover a click gesture and the "pointer" cursor, keeps the cover's
    image, size and visibility, and changes no other widget, nor the view
    model, the actions or the trace. *)
Theorem connect_widgets_one_handler_per_signal (w : World) :
  let added := new_connections _connect_widgets w in
  connections (_connect_widgets w) = connections w ++ added
  ∧ length added = 8
  ∧ NoDup (added.*1)
  ∧ controllers (cover_img (self (_connect_widgets w)))
    = controllers (cover_img (self w)) ++ [the_cover_click_gesture]
  ∧ cursor (cover_img (self (_connect_widgets w))) = Some "pointer"
  ∧ image_source_of (cover_img (self (_connect_widgets w)))
    = image_source_of (cover_img (self w))
  ∧ pixel_size (cover_img (self (_connect_widgets w))) = pixel_size (cover_img (self w))
  ∧ image_visible (cover_img (self (_connect_widgets w)))
    = image_visible (cover_img (self w))
  ∧ self (_connect_widgets w)
    = self (on_cover_img (λ _, cover_img (self (_connect_widgets w))) w)
  ∧ vm (_connect_widgets w) = vm w
  ∧ main_window (_connect_widgets w) = main_window w
  ∧ trace (_connect_widgets w) = trace w.
Proof.
  intros added. subst added. unfold new_connections.
  rewrite connect_widgets_connections, drop_app_length.
  split; [done|]. split; [done|].
  split; [apply (bool_decide_unpack _); vm_compute; exact I|].
  split_world w. run_statements. repeat split; reflexivity.
Qed.

Lemma invoke_keeps_tables (cb : callback) (w : World) :
  connections (invoke cb w) = connections w
  ∧ main_window (invoke cb w) = main_window w
  ∧ cursor (cover_img (self (invoke cb w))) = cursor (cover_img (self w))
  ∧ controllers (cover_img (self (invoke cb w))) = controllers (cover_img (self w))
  ∧ icons (volume_button (self (invoke cb w))) = icons (volume_button (self w))
  ∧ child (container_bar (self (invoke cb w))) = child (container_bar (self w))
  ∧ seek_bar_container (self (invoke cb w)) = seek_bar_container (self w)
  ∧ playback_speed_button (self (invoke cb w)) = playback_speed_button (self w)
  ∧ sleep_timer (self (invoke cb w)) = sleep_timer (self w).
Proof.
  destruct cb; split_world w; run_methods; split_tests; run_statements;
    repeat split; reflexivity.
Qed.

Lemma wired_world_tables (b : Builder) (s : SeekBar.t) (w : World) :
  let w0 := _connect_widgets (_connect_view_model (construction_prefix b s w)) in
  connections w0
  = connections w
    ++ [(the_timer_button, "clicked", sleep_timer_present);
        (the_play_button, "clicked", self_play_clicked);
        (the_volume_button, "value-changed", self_on_volume_button_changed);
        (the_seek_bar, "position-changed", self_on_seek_bar_position_changed);
        (the_prev_button, "clicked", self_rewind_clicked);
        (the_next_button, "clicked", self_forward_clicked);
        (the_seek_bar, "rewind", self_rewind_clicked);
        (the_seek_bar, "forward", self_forward_clicked);
        (the_cover_click_gesture, "pressed", self_cover_clicked)]
  ∧ main_window w0 = main_window w
  ∧ cursor (cover_img (self w0)) = Some "pointer"
  ∧ controllers (cover_img (self w0))
    = controllers (cover_img (self w)) ++ [the_cover_click_gesture]
  ∧ icons (volume_button (self w0))
    = ["audio-volume-muted-symbolic"; "audio-volume-high-symbolic";
       "audio-volume-low-symbolic"; "audio-volume-medium-symbolic"]
  ∧ child (container_bar (self w0)) = Some the_media_controller
  ∧ children (seek_bar_container (self w0))
    = children (seek_bar_container (self w)) ++ [the_seek_bar]
  ∧ popover (playback_speed_button (self w0)) = Some PlaybackSpeedPopover
  ∧ timer_widget (sleep_timer (self w0)) = the_timer_button.
Proof.
  split_world w. run_statements. rewrite <- !app_assoc. repeat split; reflexivity.
Qed.

Lemma setup_shortcuts_connections (w : World) :
  connections (_setup_shortcuts w) = connections w.
Proof. split_world w. by run_statements. Qed.

Lemma five_callbacks_keep {A : Type} (obs : World → A) :
  (∀ cb w, obs (invoke cb w) = obs w) →
  ∀ w0,
    obs (invoke self_on_volume_changed
          (invoke self_on_position_changed
            (invoke self_on_length_changed
              (invoke self_on_lock_ui_changed
                (invoke self_on_book_changed w0)))))
    = obs w0.
Proof. intros Hkeep w0. by rewrite !Hkeep. Qed.

(** Carry a field that no callback writes across the five calls of
    [__init__]. *)
Ltac through_callbacks obs :=
  let K := fresh "K" in
  pose proof (five_callbacks_keep obs) as K; cbv beta in K;
  rewrite K by (intros; apply invoke_keeps_tables); clear K.

(** X14.  Construction wires the controller up: it puts itself into the
    builder's "media_control_box", appends the fresh seek bar to its
    container, builds the sleep timer on the timer button, installs the
    speed popover and the four volume icons, makes the cover clickable,
    appends nine signal connections (the timer button's first, then the eight
    of [_connect_widgets]) and the ten actions of [_setup_shortcuts] to what
    was there before, and assigns no view-model property. *)
Theorem init_wires_widgets_and_tables (b : Builder) (s : SeekBar.t) (w : World) :
  let w' := __init__ b s w in
  connections w'
  = connections w
    ++ (the_timer_button, "clicked", sleep_timer_present)
       :: new_connections _connect_widgets w
  ∧ actions (main_window w')
    = actions (main_window w) ++ new_actions _setup_shortcuts w
  ∧ cursor (cover_img (self w')) = Some "pointer"
  ∧ controllers (cover_img (self w'))
    = controllers (cover_img (self w)) ++ [the_cover_click_gesture]
  ∧ icons (volume_button (self w'))
    = ["audio-volume-muted-symbolic"; "audio-volume-high-symbolic";
       "audio-volume-low-symbolic"; "audio-volume-medium-symbolic"]
  ∧ child (container_bar (self w')) = Some the_media_controller
  ∧ children (seek_bar_container (self w'))
    = children (seek_bar_container (self w)) ++ [the_seek_bar]
  ∧ popover (playback_speed_button (self w')) = Some PlaybackSpeedPopover
  ∧ timer_widget (sleep_timer (self w')) = the_timer_button
  ∧ PlaybackControlViewModel.book (vm w') = PlaybackControlViewModel.book (vm w)
  ∧ PlaybackControlViewModel.playing (vm w') = PlaybackControlViewModel.playing (vm w)
  ∧ PlaybackControlViewModel.length (vm w') = PlaybackControlViewModel.length (vm w)
  ∧ PlaybackControlViewModel.relative_position (vm w')
    = PlaybackControlViewModel.relative_position (vm w)
  ∧ PlaybackControlViewModel.lock_ui (vm w') = PlaybackControlViewModel.lock_ui (vm w)
  ∧ PlaybackControlViewModel.volume (vm w') = PlaybackControlViewModel.volume (vm w).
Proof.
  intros w'. subst w'. unfold new_connections, new_actions.
  rewrite connect_widgets_connections, setup_shortcuts_actions, !drop_app_length.
  destruct (init_view_model_values b s w) as (V1 & V2 & V3 & V4 & V5 & V6).
  destruct (wired_world_tables b s w) as (Hc & Hm & H1 & H2 & H3 & H4 & H5 & H6 & H7).
  cbv zeta in Hc, Hm, H1, H2, H3, H4, H5, H6, H7.
  repeat match goal with |- _ ∧ _ => split end; try assumption;
    rewrite init_steps, ?setup_shortcuts_connections, ?setup_shortcuts_actions,
      ?(proj2 (proj2 (setup_shortcuts_frame _)));
    first
      [ through_callbacks connections
      | through_callbacks main_window
      | through_callbacks (λ w, cursor (cover_img (self w)))
      | through_callbacks (λ w, controllers (cover_img (self w)))
      | through_callbacks (λ w, icons (volume_button (self w)))
      | through_callbacks (λ w, child (container_bar (self w)))
      | through_callbacks (λ w, seek_bar_container (self w))
      | through_callbacks (λ w, playback_speed_button (self w))
      | through_callbacks (λ w, sleep_timer (self w)) ];
    first [ rewrite Hc | rewrite Hm | rewrite H1 | rewrite H2 | rewrite H3
          | rewrite H4 | rewrite H5 | rewrite H6 | rewrite H7 ];
    reflexivity.
Qed.

(** ** These properties on the concrete world *)

Example rewound_length_kept :
  SeekBar.length (seek_bar (self constructed_world)) = (3600 # 1)%Q
  ∧ SeekBar.length (seek_bar (self (_on_length_changed rewound_world))) = (3600 # 1)%Q
  ∧ SeekBar.position (seek_bar (self (_on_position_changed rewound_world))) = 0%Q.
Proof. repeat split; vm_compute; reflexivity. Qed.

Example first_play_change_shows_pause :
  icon_name (play_button (self (_on_play_changed constructed_world)))
  = "media-playback-pause-symbolic".
Proof. vm_compute. reflexivity. Qed.

Lemma on_length_changed_ignores_none_and_zero_witness :
  PlaybackControlViewModel.relative_position (vm rewound_world) = Some 0%Q
  ∧ SeekBar.position (seek_bar (self (_on_position_changed rewound_world))) = 0%Q.
Proof.
  assert (PlaybackControlViewModel.relative_position (vm rewound_world) = Some 0%Q)
    as Hpos by (vm_compute; reflexivity).
  split; [exact Hpos|].
  exact (proj2 (on_length_changed_ignores_none_and_zero rewound_world) Hpos).
Defined.

Lemma callbacks_write_only_their_widgets_witness :
  self_on_volume_changed ≠ self_on_play_changed
  ∧ play_button (self (invoke self_on_volume_changed constructed_world))
    = play_button (self constructed_world).
Proof.
  assert (self_on_volume_changed ≠ self_on_play_changed) as Hne by discriminate.
  split; [exact Hne|].
  exact (proj1 (proj2 (callbacks_write_only_their_widgets
                         self_on_volume_changed constructed_world)) Hne).
Defined.

Lemma play_button_set_by_first_play_change_witness :
  self_on_volume_changed ≠ self_on_play_changed
  ∧ play_button
      (self (invoke self_on_volume_changed
               (__init__ example_builder example_seek_bar example_world)))
    = play_button (self example_world).
Proof.
  assert (self_on_volume_changed ≠ self_on_play_changed) as Hne by discriminate.
  split; [exact Hne|].
  exact (proj2 (play_button_set_by_first_play_change
                  example_builder example_seek_bar example_world)
           self_on_volume_changed Hne).
Defined.
